(** * Tech-insights: the dynamic entity fact retriever

    A shallow embedding of the two fact retrievers of the tech-insights
    backend plugin:

    - [Static]: the descriptor [dynamicEntityFactRetriever] of
      [service/fact/factRetrievers/dynamicEntityFactRetriever.ts];
    - [Factory]: [createDynamicEntityFactRetriever] with its presets.

    Entities arrive as parsed JSON, so they are modelled as untyped
    JavaScript values and the handler's operators ([||], [Boolean],
    property reads, [Object.keys], [Array.prototype.filter], [===], [>])
    are given their run-time meaning on such values.  The effects of a
    handler (the clock read by [DateTime.now()], the request sent to the
    catalog, the lines given to the logger) are threaded through an
    explicit [World]. *)

From Stdlib Require Import String List ZArith Lia Bool Permutation.
From Stdlib Require Import DecimalString.
Import ListNotations.
Local Open Scope string_scope.
Local Open Scope list_scope.

(** ** JavaScript values *)

(** Values that [JSON.parse] can produce, plus [undefined] (the result of
    reading a property that is not there).  An object is the list of its
    own properties in insertion order.  Numbers are integers here: the
    handlers only produce lengths and only test a number for being zero. *)
#[local] Set Warnings "-register-all".
Inductive value : Type :=
| VUndefined
| VNull
| VBool (b : bool)
| VNum (n : Z)
| VStr (s : string)
| VArr (items : list value)
| VObj (fields : list (string * value)).

(** What can be thrown: a [TypeError] of the language, or the rejection of
    a request to the auth service or to the catalog. *)
Inductive exn : Type :=
| TypeError (msg : string)
| Rejected (msg : string).

(** The result of evaluating an expression: a value, a thrown exception, or
    [Unmodelled] when the evaluation needs a coercion that is left out of
    this model (string-to-number, in [gt]).  [Unmodelled] is not a failure
    of the code: it says nothing about what the code does there, and no
    statement below reads it as a throw. *)
Inductive Outcome (A : Type) : Type :=
| Ok (a : A)
| Throw (e : exn)
| Unmodelled.
Arguments Ok {A} a.
Arguments Throw {A} e.
Arguments Unmodelled {A}.

Definition isOk {A} (o : Outcome A) : bool :=
  match o with Ok _ => true | _ => false end.

Definition nullish (v : value) : bool :=
  match v with
  | VUndefined | VNull => true
  | _ => false
  end.

(** [Boolean(v)], the truthiness test behind [||] and [? :]. *)
Definition Boolean (v : value) : bool :=
  match v with
  | VUndefined | VNull => false
  | VBool b => b
  | VNum n => negb (n =? 0)%Z
  | VStr s => negb (s =? "")
  | VArr _ | VObj _ => true
  end.

(** [a || b] on values already evaluated (every right operand in the
    handlers is a literal or a variable). *)
Definition or (a b : value) : value := if Boolean a then a else b.
Infix "|||" := or (at level 50, left associativity).

Fixpoint lookup (k : string) (fields : list (string * value)) : value :=
  match fields with
  | [] => VUndefined
  | (k', v) :: rest => if k' =? k then v else lookup k rest
  end.

(** [v.k] for a receiver that is neither [undefined] nor [null], where [k]
    is one of the identifiers the handlers read: dot syntax, so never an
    array index, and none of them names a method or accessor of a
    prototype, [length] apart, which an array and a string own. *)
Definition prop (v : value) (k : string) : value :=
  match v with
  | VObj fields => lookup k fields
  | VArr items => if k =? "length" then VNum (Z.of_nat (List.length items)) else VUndefined
  | VStr s => if k =? "length" then VNum (Z.of_nat (String.length s)) else VUndefined
  | _ => VUndefined
  end.

(** [v.k]: reading a property of [undefined] or [null] throws. *)
Definition get (v : value) (k : string) : Outcome value :=
  match v with
  | VUndefined =>
      Throw (TypeError ("Cannot read properties of undefined (reading '" ++ k ++ "')"))
  | VNull =>
      Throw (TypeError ("Cannot read properties of null (reading '" ++ k ++ "')"))
  | _ => Ok (prop v k)
  end.

(** [v === s] for a string literal [s]. *)
Definition strictEqStr (v : value) (s : string) : bool :=
  match v with
  | VStr t => t =? s
  | _ => false
  end.

(** [v > n] for a number literal [n].  [undefined] becomes NaN, which
    compares false; [null] is 0 and a boolean 0 or 1.  An object is turned
    into a primitive through [valueOf] and [toString]: a parsed object
    inherits them and becomes ["[object Object]"], hence NaN, unless it has
    a [toString] entry of its own, which no JSON value can make callable,
    and then the conversion throws.  A string operand is parsed as a number
    and compared (['5' > 0] is true), and an array operand is first joined
    into a string: that parsing is left out, and the outcome is
    [Unmodelled]. *)
Definition gt (v : value) (n : Z) : Outcome bool :=
  match v with
  | VUndefined => Ok false
  | VNull => Ok (n <? 0)%Z
  | VBool b => Ok (n <? (if b then 1 else 0))%Z
  | VNum m => Ok (n <? m)%Z
  | VObj fields =>
      if existsb (fun kv => fst kv =? "toString") fields
      then Throw (TypeError "Cannot convert object to primitive value")
      else Ok false
  | VStr _ | VArr _ => Unmodelled
  end.

Definition string_of_nat (n : nat) : string :=
  NilEmpty.string_of_uint (Nat.to_uint n).

(** [Object.keys(v)]: own enumerable property names; the indices for an
    array or a string, nothing for a number or a boolean. *)
Definition Object_keys (v : value) : Outcome (list string) :=
  match v with
  | VUndefined | VNull =>
      Throw (TypeError "Cannot convert undefined or null to object")
  | VObj fields => Ok (map fst fields)
  | VArr items => Ok (map string_of_nat (seq 0 (List.length items)))
  | VStr s => Ok (map string_of_nat (seq 0 (String.length s)))
  | VBool _ | VNum _ => Ok []
  end.

(** ** The world a handler runs in *)

(** [clock] is what [DateTime.now()] answers at its successive calls,
    [ticks] counts the calls made so far, [requests] holds the (filter,
    token) pairs sent to the catalog and [logged] the lines passed to
    [logger.info] (message, further arguments), both oldest first. *)
Record World : Type := mkWorld {
  clock : nat -> Z;
  ticks : nat;
  requests : list (value * string);
  logged : list (string * list value)
}.

Definition M (A : Type) : Type := World -> Outcome A * World.

Definition ret {A} (a : A) : M A := fun w => (Ok a, w).

Definition bind {A B} (m : M A) (f : A -> M B) : M B :=
  fun w =>
    match m w with
    | (Ok a, w') => f a w'
    | (Throw e, w') => (Throw e, w')
    | (Unmodelled, w') => (Unmodelled, w')
    end.

Definition lift {A} (o : Outcome A) : M A := fun w => (o, w).

Notation "x <- m ;; k" := (bind m (fun x => k))
  (at level 61, m at next level, right associativity).
Notation "m ;;; k" := (bind m (fun _ => k))
  (at level 61, right associativity).

(** [xs.map(f)]: the callback runs on the elements in order; the first one
    that throws ends the whole call. *)
Fixpoint mapM {A B} (f : A -> M B) (xs : list A) : M (list B) :=
  match xs with
  | [] => ret []
  | x :: rest =>
      y <- f x ;;
      ys <- mapM f rest ;;
      ret (y :: ys)
  end.

(** [arr.filter(p).length] needs [arr] to be an array: any other JSON value
    has no callable [filter]. *)
Fixpoint filterO (p : value -> Outcome bool) (xs : list value) : Outcome (list value) :=
  match xs with
  | [] => Ok []
  | x :: rest =>
      match p x with
      | Ok b =>
          match filterO p rest with
          | Ok ys => Ok (if b then x :: ys else ys)
          | Throw e => Throw e
          | Unmodelled => Unmodelled
          end
      | Throw e => Throw e
      | Unmodelled => Unmodelled
      end
  end.

Definition Array_filter (arr : value) (p : value -> Outcome bool) : Outcome (list value) :=
  match arr with
  | VArr items => filterO p items
  | VUndefined =>
      Throw (TypeError "Cannot read properties of undefined (reading 'filter')")
  | VNull =>
      Throw (TypeError "Cannot read properties of null (reading 'filter')")
  | _ => Throw (TypeError "relations.filter is not a function")
  end.

(** The callback [r => r.type === s] of the two relation counts. *)
Definition typeTest (s : string) (r : value) : Outcome bool :=
  match get r "type" with
  | Ok t => Ok (strictEqStr t s)
  | Throw e => Throw e
  | Unmodelled => Unmodelled
  end.

(** [DateTime.now()] *)
Definition DateTime_now : M Z :=
  fun w => (Ok (clock w (ticks w)),
            mkWorld (clock w) (S (ticks w)) (requests w) (logged w)).

(** ** Fact records *)

Record EntityRef : Type := mkEntityRef {
  namespace : value;
  kind : value;
  name : value
}.

Record FactRecord : Type := mkFactRecord {
  entity : EntityRef;
  facts : list (string * value);
  timestamp : Z
}.

Module SchemaField.
Record t : Type := make {
  type : string;
  description : string
}.
End SchemaField.

(** ** The context given to a handler *)

Record AuthService : Type := mkAuthService {
  getOwnServiceCredentials : Outcome string;
  getPluginRequestToken : string -> string -> Outcome string
}.

(** [discovery] stands for the catalog reached through it: what
    [getEntities] answers ([items]) for a filter and a token.
    [entityFilter] is [VUndefined] when the caller gives none, and [logger]
    tells whether a logger was injected. *)
Record FactRetrieverContext : Type := mkContext {
  discovery : value -> string -> Outcome (list value);
  entityFilter : value;
  auth : AuthService;
  logger : bool
}.

Record FactRetriever : Type := mkFactRetriever {
  id : string;
  version : string;
  title : string;
  description : string;
  schema : list (string * SchemaField.t);
  handler : FactRetrieverContext -> M (list FactRecord)
}.

(** [new CatalogClient({discoveryApi}).getEntities({filter}, {token})] *)
Definition CatalogClient_getEntities
    (discoveryApi : value -> string -> Outcome (list value))
    (filter : value) (token : string) : M (list value) :=
  fun w => (discoveryApi filter token,
            mkWorld (clock w) (ticks w) (requests w ++ [(filter, token)]) (logged w)).

(** [logger?.info(msg, ...args)] *)
Definition logger_info (present : bool) (msg : string) (args : list value) : M unit :=
  fun w => (Ok tt,
            if present
            then mkWorld (clock w) (ticks w) (requests w) (logged w ++ [(msg, args)])
            else w).

(** The token request shared by both handlers. *)
Definition requestToken (a : AuthService) : M string :=
  credentials <- lift (getOwnServiceCredentials a) ;;
  lift (getPluginRequestToken a credentials "catalog").

(** ** [dynamicEntityFactRetriever.ts]: the static descriptor *)

Module Static.

Definition schema : list (string * SchemaField.t) :=
  [ ("entity", SchemaField.make "object"
       "Complete entity object with all properties accessible via JSONPath");
    ("kind", SchemaField.make "string" "Entity kind (e.g., Component, API, Resource)");
    ("name", SchemaField.make "string" "Entity name from metadata.name");
    ("namespace", SchemaField.make "string" "Entity namespace from metadata.namespace");
    ("metadata", SchemaField.make "object"
       "Entity metadata object containing title, description, annotations, labels, etc.");
    ("annotations", SchemaField.make "object" "Entity annotations object (metadata.annotations)");
    ("labels", SchemaField.make "object" "Entity labels object (metadata.labels)");
    ("title", SchemaField.make "string" "Entity title from metadata.title");
    ("description", SchemaField.make "string" "Entity description from metadata.description");
    ("tags", SchemaField.make "array" "Entity tags array from metadata.tags");
    ("spec", SchemaField.make "object"
       "Entity spec object containing type, lifecycle, owner, etc.");
    ("owner", SchemaField.make "string" "Entity owner from spec.owner");
    ("lifecycle", SchemaField.make "string" "Entity lifecycle from spec.lifecycle");
    ("type", SchemaField.make "string" "Entity type from spec.type");
    ("system", SchemaField.make "string" "Entity system from spec.system");
    ("relations", SchemaField.make "array"
       "Entity relations array for dependency and ownership analysis");
    ("status", SchemaField.make "object" "Entity status object");
    ("hasTitle", SchemaField.make "boolean" "Boolean indicating if entity has a title");
    ("hasDescription", SchemaField.make "boolean"
       "Boolean indicating if entity has a description");
    ("hasTags", SchemaField.make "boolean" "Boolean indicating if entity has tags");
    ("hasOwner", SchemaField.make "boolean" "Boolean indicating if entity has an owner");
    ("hasAnnotations", SchemaField.make "boolean"
       "Boolean indicating if entity has annotations");
    ("hasLabels", SchemaField.make "boolean" "Boolean indicating if entity has labels");
    ("relationCount", SchemaField.make "number" "Total number of relations");
    ("dependencyCount", SchemaField.make "number" "Number of dependsOn relations");
    ("dependentCount", SchemaField.make "number" "Number of dependencyOf relations");
    ("links", SchemaField.make "array" "Entity links array from metadata.links");
    ("linkCount", SchemaField.make "number" "Number of links defined") ].

(** The arrow function given to [entities.items.map]. *)
Definition toFactRecord (entity : value) : M FactRecord :=
  (* Extract commonly used properties for easier access *)
  entity_metadata <- lift (get entity "metadata") ;;
  let metadata := entity_metadata ||| VObj [] in
  entity_spec <- lift (get entity "spec") ;;
  let spec := entity_spec ||| VObj [] in
  entity_relations <- lift (get entity "relations") ;;
  let relations := entity_relations ||| VArr [] in
  metadata_annotations <- lift (get metadata "annotations") ;;
  let annotations := metadata_annotations ||| VObj [] in
  metadata_labels <- lift (get metadata "labels") ;;
  let labels := metadata_labels ||| VObj [] in
  metadata_tags <- lift (get metadata "tags") ;;
  let tags := metadata_tags ||| VArr [] in
  metadata_links <- lift (get metadata "links") ;;
  let links := metadata_links ||| VArr [] in
  (* Calculate relationship counts *)
  dependsOn <- lift (Array_filter relations (typeTest "dependsOn")) ;;
  let dependencyCount := VNum (Z.of_nat (List.length dependsOn)) in
  dependencyOf <- lift (Array_filter relations (typeTest "dependencyOf")) ;;
  let dependentCount := VNum (Z.of_nat (List.length dependencyOf)) in
  (* entity: { namespace, kind, name } *)
  entity_metadata1 <- lift (get entity "metadata") ;;
  ref_namespace <- lift (get entity_metadata1 "namespace") ;;
  ref_kind <- lift (get entity "kind") ;;
  entity_metadata2 <- lift (get entity "metadata") ;;
  ref_name <- lift (get entity_metadata2 "name") ;;
  (* facts: { ... } *)
  entity_kind <- lift (get entity "kind") ;;
  metadata_name <- lift (get metadata "name") ;;
  metadata_namespace <- lift (get metadata "namespace") ;;
  metadata_title <- lift (get metadata "title") ;;
  metadata_description <- lift (get metadata "description") ;;
  spec_owner <- lift (get spec "owner") ;;
  spec_lifecycle <- lift (get spec "lifecycle") ;;
  spec_type <- lift (get spec "type") ;;
  spec_system <- lift (get spec "system") ;;
  metadata_title' <- lift (get metadata "title") ;;
  metadata_description' <- lift (get metadata "description") ;;
  tags_length <- lift (get tags "length") ;;
  hasTags <- lift (gt tags_length 0) ;;
  spec_owner' <- lift (get spec "owner") ;;
  annotation_keys <- lift (Object_keys annotations) ;;
  hasAnnotations <- lift (gt (VNum (Z.of_nat (List.length annotation_keys))) 0) ;;
  label_keys <- lift (Object_keys labels) ;;
  hasLabels <- lift (gt (VNum (Z.of_nat (List.length label_keys))) 0) ;;
  relations_length <- lift (get relations "length") ;;
  links_length <- lift (get links "length") ;;
  now <- DateTime_now ;;
  ret {|
    entity := {|
      namespace := ref_namespace;
      kind := ref_kind;
      name := ref_name
    |};
    facts := [
      (* Complete entity for JSONPath access *)
      ("entity", entity);
      (* Core identification *)
      ("kind", entity_kind);
      ("name", metadata_name);
      ("namespace", metadata_namespace ||| VStr "default");
      (* Metadata shortcuts *)
      ("metadata", metadata);
      ("annotations", annotations);
      ("labels", labels);
      ("title", metadata_title ||| VNull);
      ("description", metadata_description ||| VNull);
      ("tags", tags);
      ("links", links);
      (* Spec shortcuts *)
      ("spec", spec);
      ("owner", spec_owner ||| VNull);
      ("lifecycle", spec_lifecycle ||| VNull);
      ("type", spec_type ||| VNull);
      ("system", spec_system ||| VNull);
      (* Relations *)
      ("relations", relations);
      (* Computed boolean flags for common checks *)
      ("hasTitle", VBool (Boolean metadata_title'));
      ("hasDescription", VBool (Boolean metadata_description'));
      ("hasTags", VBool hasTags);
      ("hasOwner", VBool (Boolean spec_owner'));
      ("hasAnnotations", VBool hasAnnotations);
      ("hasLabels", VBool hasLabels);
      (* Counts for analysis *)
      ("relationCount", relations_length);
      ("dependencyCount", dependencyCount);
      ("dependentCount", dependentCount);
      ("linkCount", links_length)
    ];
    timestamp := now
  |}.

Definition handler (ctx : FactRetrieverContext) : M (list FactRecord) :=
  token <- requestToken (auth ctx) ;;
  entities <- CatalogClient_getEntities (discovery ctx) (entityFilter ctx) token ;;
  mapM toFactRecord entities.

Definition dynamicEntityFactRetriever : FactRetriever :=
  mkFactRetriever
    (* id *) "dynamicEntityFactRetriever"
    (* version *) "0.1.0"
    (* title *) "Dynamic Entity Properties"
    (* description *)
    "Exposes complete entity structure for dynamic property checking via JSONPath expressions"
    schema
    handler.

End Static.

(** ** [createDynamicEntityFactRetriever] and its presets *)

Module Factory.

Definition schema : list (string * SchemaField.t) :=
  [ ("entity", SchemaField.make "object"
       "Complete entity object with all properties accessible via JSONPath");
    ("kind", SchemaField.make "string" "Entity kind (e.g., Component, API, Resource)");
    ("name", SchemaField.make "string" "Entity name from metadata.name");
    ("namespace", SchemaField.make "string" "Entity namespace from metadata.namespace");
    ("metadata", SchemaField.make "object"
       "Entity metadata object containing title, description, annotations, labels, etc.");
    ("annotations", SchemaField.make "object" "Entity annotations object (metadata.annotations)");
    ("labels", SchemaField.make "object" "Entity labels object (metadata.labels)");
    ("title", SchemaField.make "string" "Entity title from metadata.title");
    ("description", SchemaField.make "string" "Entity description from metadata.description");
    ("tags", SchemaField.make "object" "Entity tags array from metadata.tags");
    ("spec", SchemaField.make "object"
       "Entity spec object containing type, lifecycle, owner, etc.");
    ("owner", SchemaField.make "string" "Entity owner from spec.owner");
    ("lifecycle", SchemaField.make "string" "Entity lifecycle from spec.lifecycle");
    ("type", SchemaField.make "string" "Entity type from spec.type");
    ("system", SchemaField.make "string" "Entity system from spec.system");
    ("relations", SchemaField.make "object"
       "Entity relations array for dependency and ownership analysis");
    ("status", SchemaField.make "object" "Entity status object");
    ("hasTitle", SchemaField.make "boolean" "Boolean indicating if entity has a title");
    ("hasDescription", SchemaField.make "boolean"
       "Boolean indicating if entity has a description");
    ("hasTags", SchemaField.make "boolean" "Boolean indicating if entity has tags");
    ("hasOwner", SchemaField.make "boolean" "Boolean indicating if entity has an owner");
    ("hasAnnotations", SchemaField.make "boolean"
       "Boolean indicating if entity has annotations");
    ("hasLabels", SchemaField.make "boolean" "Boolean indicating if entity has labels");
    ("relationCount", SchemaField.make "integer" "Total number of relations");
    ("dependencyCount", SchemaField.make "integer" "Number of dependsOn relations");
    ("dependentCount", SchemaField.make "integer" "Number of dependencyOf relations");
    ("links", SchemaField.make "object" "Entity links array from metadata.links");
    ("linkCount", SchemaField.make "integer" "Number of links defined") ].

(** The arrow function given to [entities.items.map]. *)
Definition toFactRecord (entity : value) : M FactRecord :=
  (* Extract commonly used properties for easier access *)
  entity_metadata <- lift (get entity "metadata") ;;
  let metadata := entity_metadata ||| VObj [] in
  entity_spec <- lift (get entity "spec") ;;
  let spec := entity_spec ||| VObj [] in
  entity_relations <- lift (get entity "relations") ;;
  let relations := entity_relations ||| VArr [] in
  entity_status <- lift (get entity "status") ;;
  let status := entity_status ||| VObj [] in
  metadata_annotations <- lift (get metadata "annotations") ;;
  let annotations := metadata_annotations ||| VObj [] in
  metadata_labels <- lift (get metadata "labels") ;;
  let labels := metadata_labels ||| VObj [] in
  metadata_tags <- lift (get metadata "tags") ;;
  let tags := metadata_tags ||| VArr [] in
  metadata_links <- lift (get metadata "links") ;;
  let links := metadata_links ||| VArr [] in
  (* Calculate relationship counts *)
  dependsOn <- lift (Array_filter relations (typeTest "dependsOn")) ;;
  let dependencyCount := VNum (Z.of_nat (List.length dependsOn)) in
  dependencyOf <- lift (Array_filter relations (typeTest "dependencyOf")) ;;
  let dependentCount := VNum (Z.of_nat (List.length dependencyOf)) in
  (* entity: { namespace, kind, name } *)
  entity_metadata1 <- lift (get entity "metadata") ;;
  ref_namespace <- lift (get entity_metadata1 "namespace") ;;
  ref_kind <- lift (get entity "kind") ;;
  entity_metadata2 <- lift (get entity "metadata") ;;
  ref_name <- lift (get entity_metadata2 "name") ;;
  (* facts: { ... } *)
  entity_kind <- lift (get entity "kind") ;;
  metadata_name <- lift (get metadata "name") ;;
  metadata_namespace <- lift (get metadata "namespace") ;;
  metadata_title <- lift (get metadata "title") ;;
  metadata_description <- lift (get metadata "description") ;;
  spec_owner <- lift (get spec "owner") ;;
  spec_lifecycle <- lift (get spec "lifecycle") ;;
  spec_type <- lift (get spec "type") ;;
  spec_system <- lift (get spec "system") ;;
  metadata_title' <- lift (get metadata "title") ;;
  metadata_description' <- lift (get metadata "description") ;;
  tags_length <- lift (get tags "length") ;;
  hasTags <- lift (gt tags_length 0) ;;
  spec_owner' <- lift (get spec "owner") ;;
  annotation_keys <- lift (Object_keys annotations) ;;
  hasAnnotations <- lift (gt (VNum (Z.of_nat (List.length annotation_keys))) 0) ;;
  label_keys <- lift (Object_keys labels) ;;
  hasLabels <- lift (gt (VNum (Z.of_nat (List.length label_keys))) 0) ;;
  relations_length <- lift (get relations "length") ;;
  links_length <- lift (get links "length") ;;
  now <- DateTime_now ;;
  ret {|
    entity := {|
      namespace := ref_namespace;
      kind := ref_kind;
      name := ref_name
    |};
    facts := [
      (* Complete entity for JSONPath access *)
      ("entity", entity);
      (* Core identification *)
      ("kind", entity_kind);
      ("name", metadata_name);
      ("namespace", metadata_namespace ||| VStr "default");
      (* Metadata shortcuts *)
      ("metadata", metadata);
      ("annotations", annotations);
      ("labels", labels);
      ("title", metadata_title ||| VNull);
      ("description", metadata_description ||| VNull);
      ("tags", tags);
      ("links", links);
      (* Spec shortcuts *)
      ("spec", spec);
      ("owner", spec_owner ||| VNull);
      ("lifecycle", spec_lifecycle ||| VNull);
      ("type", spec_type ||| VNull);
      ("system", spec_system ||| VNull);
      (* Relations *)
      ("relations", relations);
      ("status", status);
      (* Computed boolean flags for common checks *)
      ("hasTitle", VBool (Boolean metadata_title'));
      ("hasDescription", VBool (Boolean metadata_description'));
      ("hasTags", VBool hasTags);
      ("hasOwner", VBool (Boolean spec_owner'));
      ("hasAnnotations", VBool hasAnnotations);
      ("hasLabels", VBool hasLabels);
      (* Counts for analysis *)
      ("relationCount", relations_length);
      ("dependencyCount", dependencyCount);
      ("dependentCount", dependentCount);
      ("linkCount", links_length)
    ];
    timestamp := now
  |}.

Definition handler (entityFilterConfig : value) (factRetrieverId : string)
    (ctx : FactRetrieverContext) : M (list FactRecord) :=
  token <- requestToken (auth ctx) ;;
  (* Use entityFilterConfig from configuration if available, otherwise
     fall back to context entityFilter *)
  let finalEntityFilter := entityFilterConfig ||| entityFilter ctx in
  (if Boolean entityFilterConfig
   then logger_info (logger ctx)
          (factRetrieverId ++ " using configured entity filter:") [finalEntityFilter]
   else logger_info (logger ctx)
          (factRetrieverId ++ " using context entity filter:") [finalEntityFilter]) ;;;
  entities <- CatalogClient_getEntities (discovery ctx) finalEntityFilter token ;;
  logger_info (logger ctx)
    (factRetrieverId ++ " processed " ++ string_of_nat (List.length entities) ++ " entities")
    [] ;;;
  mapM toFactRecord entities.

(** [entityFilterConfig] is [VUndefined] and [factRetrieverId] is [None]
    when the argument is left out. *)
Definition createDynamicEntityFactRetriever
    (entityFilterConfig : value) (factRetrieverId : option string) : FactRetriever :=
  let factRetrieverId :=
    match factRetrieverId with
    | Some i => i
    | None => "dynamicEntityFactRetriever"
    end in
  mkFactRetriever
    (* id *) factRetrieverId
    (* version *) "0.1.0"
    (* title *)
    ("Dynamic Entity Properties" ++
       (if Boolean entityFilterConfig then " (Filtered)" else ""))
    (* description *)
    ("Dynamic entity fact retriever" ++
       (if Boolean entityFilterConfig then " with entity filtering" else ""))
    schema
    (handler entityFilterConfig factRetrieverId).

(** Default dynamic entity fact retriever (no filtering) *)
Definition dynamicEntityFactRetriever : FactRetriever :=
  createDynamicEntityFactRetriever VUndefined None.

(** Components only *)
Definition dynamicEntityFactRetrieverComponents : FactRetriever :=
  createDynamicEntityFactRetriever
    (VObj [("kind", VArr [VStr "Component"])])
    (Some "dynamicEntityFactRetrieverComponents").

(** Production entities only *)
Definition dynamicEntityFactRetrieverProduction : FactRetriever :=
  createDynamicEntityFactRetriever
    (VObj [("spec.lifecycle", VStr "production")])
    (Some "dynamicEntityFactRetrieverProduction").

(** API entities only *)
Definition dynamicEntityFactRetrieverAPIs : FactRetriever :=
  createDynamicEntityFactRetriever
    (VObj [("kind", VArr [VStr "API"])])
    (Some "dynamicEntityFactRetrieverAPIs").

(** Service components only *)
Definition dynamicEntityFactRetrieverServices : FactRetriever :=
  createDynamicEntityFactRetriever
    (VObj [("kind", VArr [VStr "Component"]); ("spec.type", VStr "service")])
    (Some "dynamicEntityFactRetrieverServices").

(** Helper to create custom filtered fact retrievers *)
Definition createFilteredDynamicFactRetriever (filter : value) (id : string)
    : FactRetriever :=
  createDynamicEntityFactRetriever filter (Some id).

End Factory.

(** ** Reading fact records, and what the transform accepts *)

(** [r.facts[k]] *)
Definition fact (r : FactRecord) (k : string) : value := lookup k (facts r).

Definition factKeys (r : FactRecord) : list string := map fst (facts r).

(** The world after one more call of [DateTime.now()]. *)
Definition tick (w : World) : World :=
  mkWorld (clock w) (S (ticks w)) (requests w) (logged w).

Fixpoint ticked (n : nat) (w : World) : World :=
  match n with
  | O => w
  | S n' => tick (ticked n' w)
  end.

(** The test of the two [filter] callbacks, [r.type === s], on a relation
    that is neither [undefined] nor [null]. *)
Definition typeIs (s : string) (r : value) : bool := strictEqStr (prop r "type") s.

Definition present (v : value) : bool := negb (nullish v).

(** A sufficient condition for a transform to return a record (lemmas
    [Static_toFactRecord_run], [Factory_toFactRecord_run]): the entity and
    its [metadata] can be read from, [relations], when truthy, is an array
    of values that can be read from, and [tags.length] is something [>]
    compares without throwing or parsing.  It is not necessary: the code
    also returns when [tags.length] is a string, which [gt] leaves out.  On
    the [comparable] entities it is exact, and the transform throws when it
    does not hold (lemmas [Static_throws], [Factory_throws]). *)
Definition transformable (E : value) : bool :=
  present E
  && present (prop E "metadata")
  && match prop E "relations" ||| VArr [] with
     | VArr rs => forallb present rs
     | _ => false
     end
  && isOk (gt (prop (prop (prop E "metadata" ||| VObj []) "tags" ||| VArr []) "length") 0).

(** The entities whose [tags.length] is not a string or an array, so that
    [tags.length > 0] stays within the model: this holds whenever [tags] is
    absent or an array, as the data model has it.  On these entities the
    outcome of a transform is never [Unmodelled]. *)
Definition comparable (E : value) : bool :=
  match prop (prop (prop E "metadata" ||| VObj []) "tags" ||| VArr []) "length" with
  | VStr _ | VArr _ => false
  | _ => true
  end.

(** A computation that never leaves the model. *)
Definition modelled {A} (m : M A) : Prop :=
  forall w, fst (m w) <> Unmodelled.

(** Modelled from the spec: the catalog's filter grammar (a mapping from
    field to a value or list of values; the catalog client also takes an
    array of such mappings) is declared outside this repository. *)
Definition isFilterExpression (v : value) : bool :=
  match v with
  | VObj _ | VArr _ => true
  | _ => false
  end.

(** Modelled from the spec: the kind the data model gives to an optional
    text field of an entity ([Entity] is declared by the catalog model,
    outside this repository): a string, when present. *)
Definition optString (v : value) : bool :=
  match v with
  | VUndefined | VNull | VStr _ => true
  | _ => false
  end.

(** Modelled from the spec: an optional sequence field of an entity
    ([tags], [links], [relations]) is an array, when present. *)
Definition optArray (v : value) : bool :=
  match v with
  | VUndefined | VNull | VArr _ => true
  | _ => false
  end.

(** Modelled from the spec: an optional mapping field of an entity
    ([annotations], [labels]) is an object, when present. *)
Definition optObject (v : value) : bool :=
  match v with
  | VUndefined | VNull | VObj _ => true
  | _ => false
  end.

Definition isObject (v : value) : bool :=
  match v with
  | VObj _ => true
  | _ => false
  end.

(** Modelled from the spec: the shape the data model gives an entity, as
    far as the transform depends on it: an object with a [metadata] object,
    whose [tags] are a sequence when present, and with [relations] that are
    a sequence of objects when present. *)
Definition isEntity (E : value) : bool :=
  isObject E
  && isObject (prop E "metadata")
  && optArray (prop (prop E "metadata") "tags")
  && match prop E "relations" with
     | VUndefined | VNull => true
     | VArr rs => forallb isObject rs
     | _ => false
     end.

(** A non-null, non-empty string. *)
Definition nonEmptyString (v : value) : bool :=
  match v with
  | VStr s => negb (s =? "")
  | _ => false
  end.

(** A sequence with at least one element. *)
Definition nonEmptyArray (v : value) : bool :=
  match v with
  | VArr (_ :: _) => true
  | _ => false
  end.

(** A mapping with at least one key. *)
Definition hasKey (v : value) : bool :=
  match v with
  | VObj (_ :: _) => true
  | _ => false
  end.

(** The facts of a run, whatever the instant it is stamped with. *)
Definition factsOf (o : Outcome FactRecord * World) : Outcome (list (string * value)) :=
  match fst o with
  | Ok r => Ok (facts r)
  | Throw e => Throw e
  | Unmodelled => Unmodelled
  end.

(** [Object.keys(v)] for a [v] that is neither [undefined] nor [null]. *)
Definition keysOf (v : value) : list string :=
  match Object_keys v with
  | Ok ks => ks
  | _ => []
  end.

(** The record of a transformable entity in closed form (lemmas
    [Static_toFactRecord_run] and [Factory_toFactRecord_run]); [withStatus]
    tells the two handlers apart. *)
Definition recordOf (withStatus : bool) (E : value) (now : Z) : FactRecord :=
  let metadata := prop E "metadata" ||| VObj [] in
  let spec := prop E "spec" ||| VObj [] in
  let relations := prop E "relations" ||| VArr [] in
  let annotations := prop metadata "annotations" ||| VObj [] in
  let labels := prop metadata "labels" ||| VObj [] in
  let tags := prop metadata "tags" ||| VArr [] in
  let links := prop metadata "links" ||| VArr [] in
  let rs := match relations with VArr rs => rs | _ => [] end in
  mkFactRecord
    (mkEntityRef (prop (prop E "metadata") "namespace")
                 (prop E "kind")
                 (prop (prop E "metadata") "name"))
    ([ ("entity", E);
       ("kind", prop E "kind");
       ("name", prop metadata "name");
       ("namespace", prop metadata "namespace" ||| VStr "default");
       ("metadata", metadata);
       ("annotations", annotations);
       ("labels", labels);
       ("title", prop metadata "title" ||| VNull);
       ("description", prop metadata "description" ||| VNull);
       ("tags", tags);
       ("links", links);
       ("spec", spec);
       ("owner", prop spec "owner" ||| VNull);
       ("lifecycle", prop spec "lifecycle" ||| VNull);
       ("type", prop spec "type" ||| VNull);
       ("system", prop spec "system" ||| VNull);
       ("relations", relations) ]
     ++ (if withStatus then [("status", prop E "status" ||| VObj [])] else [])
     ++ [ ("hasTitle", VBool (Boolean (prop metadata "title")));
          ("hasDescription", VBool (Boolean (prop metadata "description")));
          ("hasTags", VBool match gt (prop tags "length") 0 with Ok b => b | _ => false end);
          ("hasOwner", VBool (Boolean (prop spec "owner")));
          ("hasAnnotations", VBool (0 <? Z.of_nat (List.length (keysOf annotations)))%Z);
          ("hasLabels", VBool (0 <? Z.of_nat (List.length (keysOf labels)))%Z);
          ("relationCount", prop relations "length");
          ("dependencyCount", VNum (Z.of_nat (List.length (filter (typeIs "dependsOn") rs))));
          ("dependentCount", VNum (Z.of_nat (List.length (filter (typeIs "dependencyOf") rs))));
          ("linkCount", prop links "length") ])
    now.

(** The token a handler obtains, as a value: [requestToken] leaves the
    world as it is. *)
Definition tokenOf (a : AuthService) : Outcome string :=
  match getOwnServiceCredentials a with
  | Ok credentials => getPluginRequestToken a credentials "catalog"
  | Throw e => Throw e
  | Unmodelled => Unmodelled
  end.

(** A computation that sends nothing to the catalog. *)
Definition quiet {A} (m : M A) : Prop :=
  forall w, requests (snd (m w)) = requests w.

(** A computation whose facts do not depend on the world it runs in. *)
Definition worldBlind (m : M FactRecord) : Prop :=
  forall w1 w2, factsOf (m w1) = factsOf (m w2).

(** ** Sample entities and contexts *)

Definition world0 : World :=
  mkWorld (fun n => 1700000000000 + Z.of_nat n)%Z 0 [] [].

(** The end-to-end entity of the specification. *)
Definition svc : value :=
  VObj [ ("kind", VStr "Component");
         ("metadata", VObj [ ("name", VStr "svc");
                             ("namespace", VStr "default");
                             ("tags", VArr [VStr "java"]) ]);
         ("spec", VObj [ ("owner", VStr "team-a");
                         ("lifecycle", VStr "production") ]);
         ("relations",
          VArr [ VObj [("type", VStr "dependsOn"); ("targetRef", VStr "x")];
                 VObj [("type", VStr "dependsOn"); ("targetRef", VStr "y")];
                 VObj [("type", VStr "dependencyOf"); ("targetRef", VStr "z")] ]) ].

(** An entity with no [namespace] in its metadata. *)
Definition noNamespace : value :=
  VObj [ ("kind", VStr "Component");
         ("metadata", VObj [ ("name", VStr "svc") ]) ].

(** An entity whose [namespace] is the empty string. *)
Definition emptyNamespace : value :=
  VObj [ ("kind", VStr "Component");
         ("metadata", VObj [ ("name", VStr "svc"); ("namespace", VStr "") ]) ].

(** An entity without metadata. *)
Definition noMetadata : value :=
  VObj [ ("kind", VStr "Component") ].

(** An entity with an empty title, a [partOf] relation besides the two
    counted types, and annotations. *)
Definition lib : value :=
  VObj [ ("kind", VStr "Component");
         ("metadata", VObj [ ("name", VStr "lib");
                             ("namespace", VStr "payments");
                             ("title", VStr "");
                             ("description", VStr "A library");
                             ("annotations", VObj [("backstage.io/techdocs-ref", VStr "dir:.")]);
                             ("labels", VObj []) ]);
         ("spec", VObj [ ("type", VStr "library") ]);
         ("relations",
          VArr [ VObj [("type", VStr "partOf"); ("targetRef", VStr "system:payments/core")];
                 VObj [("type", VStr "dependsOn"); ("targetRef", VStr "x")];
                 VObj [("type", VStr "dependencyOf"); ("targetRef", VStr "z")] ]) ].

Definition sampleAuth : AuthService :=
  mkAuthService (Ok "tech-insights") (fun _ _ => Ok "token-1").

(** A context whose catalog answers [items] to every query and whose caller
    asks for APIs. *)
Definition sampleContext (items : list value) : FactRetrieverContext :=
  mkContext (fun _ _ => Ok items) (VObj [("kind", VArr [VStr "API"])]) sampleAuth true.

(** ** Further notions used to describe the handlers *)

Definition mapOutcome {A B} (f : A -> B) (o : Outcome A) : Outcome B :=
  match o with
  | Ok a => Ok (f a)
  | Throw e => Throw e
  | Unmodelled => Unmodelled
  end.

(** A record without its [status] fact. *)
Definition dropStatus (r : FactRecord) : FactRecord :=
  mkFactRecord (entity r)
               (filter (fun kv => negb (fst kv =? "status")) (facts r))
               (timestamp r).

(** A computation that ends in the world it started in, but for one more
    reading of the clock when it returns. *)
Definition stamping {A} (m : M A) : Prop :=
  forall w, snd (m w) = if isOk (fst (m w)) then tick w else w.

(** Two worlds with the same clock, reading count and request log (their
    logger lines may differ). *)
Definition agree (w1 w2 : World) : Prop :=
  clock w1 = clock w2 /\ ticks w1 = ticks w2 /\ requests w1 = requests w2.

(** Two computations that cannot be told apart but by the logger lines. *)
Definition alike {A} (m1 m2 : M A) : Prop :=
  forall w1 w2, agree w1 w2 ->
    fst (m1 w1) = fst (m2 w2) /\ agree (snd (m1 w1)) (snd (m2 w2)).

(** The context [ctx] with or without a logger. *)
Definition setLogger (present : bool) (ctx : FactRetrieverContext) : FactRetrieverContext :=
  mkContext (discovery ctx) (entityFilter ctx) (auth ctx) present.

(** The two lines the factory's handler gives [logger.info] in a run that
    reaches the batch map. *)
Definition expectedLog (cfg : value) (id : string) (ctx : FactRetrieverContext)
    (n : nat) : list (string * list value) :=
  [ ((id ++ (if Boolean cfg
             then " using configured entity filter:"
             else " using context entity filter:"))%string,
     [cfg ||| entityFilter ctx]);
    ((id ++ " processed " ++ string_of_nat n ++ " entities")%string, []) ].

(** The world once the catalog has been asked: one more request, and
    [lines] more for the logger. *)
Definition afterFetch (w : World) (filter : value) (token : string)
    (lines : list (string * list value)) : World :=
  mkWorld (clock w) (ticks w) (requests w ++ [(filter, token)]) (logged w ++ lines).

(** An entity with nothing but the required fields. *)
Definition bare : value :=
  VObj [ ("kind", VStr "API");
         ("metadata", VObj [ ("name", VStr "petstore"); ("namespace", VStr "default") ]) ].

(** An entity whose [relations] is not a sequence. *)
Definition badRelations : value :=
  VObj [ ("kind", VStr "Component");
         ("metadata", VObj [ ("name", VStr "svc"); ("namespace", VStr "default") ]);
         ("relations", VStr "dependsOn:x") ].

(** An entity with a [null] among its relations. *)
Definition nullRelation : value :=
  VObj [ ("kind", VStr "Component");
         ("metadata", VObj [ ("name", VStr "svc"); ("namespace", VStr "default") ]);
         ("relations",
          VArr [ VObj [("type", VStr "dependsOn"); ("targetRef", VStr "x")]; VNull ]) ].

(** An entity with links, a status and every shortcut field. *)
Definition full : value :=
  VObj [ ("kind", VStr "Component");
         ("metadata", VObj [ ("name", VStr "web");
                             ("namespace", VStr "shop");
                             ("title", VStr "Web shop");
                             ("description", VStr "Storefront");
                             ("tags", VArr [VStr "ts"; VStr "react"]);
                             ("labels", VObj [("tier", VStr "1")]);
                             ("links", VArr [ VObj [("url", VStr "https://shop.example")];
                                              VObj [("url", VStr "https://docs.example")] ]) ]);
         ("spec", VObj [ ("owner", VStr "team-web");
                         ("lifecycle", VStr "production");
                         ("type", VStr "website");
                         ("system", VStr "shop") ]);
         ("status", VObj [("items", VArr [])]) ].

(** A context whose auth service refuses the token. *)
Definition deniedContext : FactRetrieverContext :=
  mkContext (fun _ _ => Ok [svc]) VUndefined
            (mkAuthService (Ok "tech-insights") (fun _ _ => Throw (Rejected "401")))
            true.

(** A context whose catalog is down. *)
Definition downContext : FactRetrieverContext :=
  mkContext (fun _ _ => Throw (Rejected "503")) VUndefined sampleAuth true.

(** ** Values and operators *)

Lemma get_present v k : nullish v = false -> get v k = Ok (prop v k).
Proof. destruct v; simpl; congruence. Qed.

Lemma get_Ok_inv v k x : get v k = Ok x -> nullish v = false /\ x = prop v k.
Proof.
  destruct v; simpl; intros [= <-]; auto.
Qed.

Lemma Boolean_not_nullish v : Boolean v = true -> nullish v = false.
Proof. destruct v; simpl; congruence. Qed.

Lemma or_truthy v d : Boolean d = true -> Boolean (v ||| d) = true.
Proof. unfold or; destruct (Boolean v) eqn:Hv; auto. Qed.

Lemma nullish_or_obj v : nullish (v ||| VObj []) = false.
Proof. apply Boolean_not_nullish, or_truthy; reflexivity. Qed.

Lemma nullish_or_arr v : nullish (v ||| VArr []) = false.
Proof. apply Boolean_not_nullish, or_truthy; reflexivity. Qed.

(** Defaulting a receiver to [{}] does not change what an identifier other
    than [length] reads from it. *)
Lemma prop_or_obj v k : (k =? "length") = false -> prop (v ||| VObj []) k = prop v k.
Proof.
  intros Hk; unfold or.
  destruct v as [| |[]|n|s| |]; simpl; try reflexivity.
  - destruct (n =? 0)%Z; reflexivity.
  - destruct s; simpl; rewrite ?Hk; reflexivity.
Qed.

Lemma or_falsy v d : Boolean v = false -> v ||| d = d.
Proof. unfold or; intros ->; reflexivity. Qed.

Lemma or_truthy_l v d : Boolean v = true -> v ||| d = v.
Proof. unfold or; intros ->; reflexivity. Qed.

Lemma or_null_iff v : v ||| VNull = VNull <-> Boolean v = false.
Proof.
  unfold or; destruct (Boolean v) eqn:Hv; split; auto; try discriminate.
  intros ->; discriminate.
Qed.

Lemma Object_keys_present v :
  nullish v = false -> exists ks, Object_keys v = Ok ks.
Proof. destruct v; simpl; try discriminate; eauto. Qed.

(** ** The filter callbacks *)

Lemma filterO_present s rs :
  forallb present rs = true ->
  filterO (typeTest s) rs = Ok (filter (typeIs s) rs).
Proof.
  induction rs as [|r rs IH]; simpl; [reflexivity|].
  intros [Hr Hrs]%andb_prop.
  unfold typeTest at 1. rewrite get_present by (now apply negb_true_iff).
  rewrite (IH Hrs). reflexivity.
Qed.

Lemma filterO_Ok_inv s rs l :
  filterO (typeTest s) rs = Ok l -> forallb present rs = true.
Proof.
  revert l; induction rs as [|r rs IH]; simpl; intros l; [reflexivity|].
  unfold typeTest at 1, present.
  destruct (get r "type") as [t| |] eqn:Hg; try discriminate.
  apply get_Ok_inv in Hg as [-> _]. simpl.
  destruct (filterO (typeTest s) rs) eqn:Hf; try discriminate.
  intros _. eapply IH; reflexivity.
Qed.

Lemma Array_filter_Ok_inv s v l :
  Array_filter v (typeTest s) = Ok l ->
  exists rs, v = VArr rs /\ forallb present rs = true /\ l = filter (typeIs s) rs.
Proof.
  destruct v; simpl; try discriminate.
  intros H. pose proof (filterO_Ok_inv _ _ _ H) as Hp.
  rewrite (filterO_present _ _ Hp) in H. injection H as <-. eauto.
Qed.

(** Every entity of the data model's shape is one the transforms accept. *)
Lemma isEntity_transformable E : isEntity E = true -> transformable E = true.
Proof.
  unfold isEntity, transformable, present.
  intros [[[HE Hmd]%andb_prop Htags]%andb_prop Hrel]%andb_prop.
  destruct E; try discriminate HE.
  destruct (prop (VObj fields) "metadata") as [| | | | | |md]; try discriminate Hmd.
  rewrite (or_truthy_l (VObj md)) by reflexivity.
  repeat (apply andb_true_intro; split); try reflexivity.
  - destruct (prop (VObj fields) "relations") as [| | | | |rs|];
      try discriminate Hrel; simpl; try reflexivity.
    apply forallb_forall. intros r Hr.
    rewrite forallb_forall in Hrel. specialize (Hrel r Hr).
    destruct r; try discriminate; reflexivity.
  - destruct (prop (VObj md) "tags"); try discriminate Htags; reflexivity.
Qed.

(** ** Running the transform *)

Lemma bind_lift {A B} (o : Outcome A) (f : A -> M B) w :
  bind (lift o) f w =
  match o with
  | Ok a => f a w
  | Throw e => (Throw e, w)
  | Unmodelled => (Unmodelled, w)
  end.
Proof. destruct o; reflexivity. Qed.

Lemma Object_keys_keysOf v : nullish v = false -> Object_keys v = Ok (keysOf v).
Proof.
  intros H; destruct (Object_keys_present v H) as [ks Hks].
  unfold keysOf; rewrite Hks; reflexivity.
Qed.

Lemma gt_num n : gt (VNum n) 0 = Ok (0 <? n)%Z.
Proof. reflexivity. Qed.

Lemma transformable_inv E :
  transformable E = true ->
  nullish E = false /\ nullish (prop E "metadata") = false /\
  (exists rs, prop E "relations" ||| VArr [] = VArr rs /\ forallb present rs = true) /\
  (exists b, gt (prop (prop (prop E "metadata" ||| VObj []) "tags" ||| VArr []) "length") 0
             = Ok b).
Proof.
  unfold transformable, present.
  intros [[[H1 H2]%andb_prop H3]%andb_prop H4]%andb_prop.
  apply negb_true_iff in H1, H2.
  repeat split; auto.
  - destruct (prop E "relations" ||| VArr []); try discriminate; eauto.
  - destruct (gt _ 0); try discriminate; eauto.
Qed.

(** One step of a run whose next read is known to succeed. *)
Ltac run_step :=
  rewrite bind_lift;
  lazymatch goal with
  | |- match ?o with Ok _ => _ | Throw _ => _ | Unmodelled => _ end = _ =>
      lazymatch o with
      | Ok _ => idtac
      | get _ _ =>
          rewrite get_present by
            (first [ assumption | apply nullish_or_obj | apply nullish_or_arr
                   | reflexivity ])
      | Object_keys _ => rewrite Object_keys_keysOf by apply nullish_or_obj
      | gt (VNum _) _ => rewrite gt_num
      | gt _ _ => match goal with H : gt _ 0 = Ok _ |- _ => rewrite H end
      | filterO _ _ => rewrite filterO_present by assumption
      | Array_filter _ _ =>
          match goal with H : _ = VArr _ |- _ => rewrite ?H end;
          simpl Array_filter; rewrite filterO_present by assumption
      end
  | |- _ => idtac
  end;
  cbv beta iota zeta.

Lemma Static_toFactRecord_run E w :
  transformable E = true ->
  Static.toFactRecord E w = (Ok (recordOf false E (clock w (ticks w))), tick w).
Proof.
  intros (HE & Hmd & (rs & Hrs & Hp) & (b & Hb))%transformable_inv.
  unfold Static.toFactRecord, recordOf.
  repeat run_step.
  rewrite ?Hb, ?Hrs. reflexivity.
Qed.

Lemma Factory_toFactRecord_run E w :
  transformable E = true ->
  Factory.toFactRecord E w = (Ok (recordOf true E (clock w (ticks w))), tick w).
Proof.
  intros (HE & Hmd & (rs & Hrs & Hp) & (b & Hb))%transformable_inv.
  unfold Factory.toFactRecord, recordOf.
  repeat run_step.
  rewrite ?Hb, ?Hrs. reflexivity.
Qed.

(** One step backwards through a run known to have returned. *)
Ltac inv_step H :=
  rewrite bind_lift in H;
  lazymatch type of H with
  | match ?o with Ok _ => _ | Throw _ => _ | Unmodelled => _ end = _ =>
      let x := fresh "x" in
      let Hx := fresh "Hx" in
      destruct o as [x| |] eqn:Hx; [ | discriminate H | discriminate H ]
  | _ => idtac
  end;
  cbv beta iota zeta in H.

Ltac inv_reads :=
  repeat match goal with
         | H : get _ _ = Ok _ |- _ => apply get_Ok_inv in H; destruct H as [? ->]
         | H : Array_filter _ _ = Ok _ |- _ =>
             apply Array_filter_Ok_inv in H; destruct H as (? & ? & ? & ->)
         end.

Ltac transformable_from_reads :=
  unfold transformable, present in *;
  repeat match goal with
         | H : nullish _ = false |- _ => rewrite H; clear H
         | H : _ ||| VArr [] = VArr _ |- _ => rewrite H; clear H
         | H : forallb _ _ = true |- _ => rewrite H; clear H
         | H : gt _ _ = Ok _ |- _ => rewrite H; clear H
         end;
  reflexivity.

Lemma Static_toFactRecord_Ok_inv E w r w' :
  Static.toFactRecord E w = (Ok r, w') -> transformable E = true.
Proof.
  unfold Static.toFactRecord; intros H.
  repeat inv_step H. clear H. inv_reads.
  transformable_from_reads.
Qed.

Lemma Factory_toFactRecord_Ok_inv E w r w' :
  Factory.toFactRecord E w = (Ok r, w') -> transformable E = true.
Proof.
  unfold Factory.toFactRecord; intros H.
  repeat inv_step H. clear H. inv_reads.
  transformable_from_reads.
Qed.

(** Whichever handler returned [r], it is the closed form. *)
Lemma returned_record E w r w' :
  Static.toFactRecord E w = (Ok r, w') \/ Factory.toFactRecord E w = (Ok r, w') ->
  transformable E = true /\ w' = tick w /\
  exists withStatus, r = recordOf withStatus E (clock w (ticks w)).
Proof.
  intros [H|H].
  - pose proof (Static_toFactRecord_Ok_inv _ _ _ _ H) as Ht.
    rewrite (Static_toFactRecord_run E w Ht) in H. injection H as <- <-. eauto.
  - pose proof (Factory_toFactRecord_Ok_inv _ _ _ _ H) as Ht.
    rewrite (Factory_toFactRecord_run E w Ht) in H. injection H as <- <-. eauto.
Qed.

Lemma Static_not_transformable E w :
  transformable E = false -> isOk (fst (Static.toFactRecord E w)) = false.
Proof.
  intros Hn. destruct (Static.toFactRecord E w) as [[r| |] w'] eqn:H; try reflexivity.
  apply Static_toFactRecord_Ok_inv in H. congruence.
Qed.

Lemma Factory_not_transformable E w :
  transformable E = false -> isOk (fst (Factory.toFactRecord E w)) = false.
Proof.
  intros Hn. destruct (Factory.toFactRecord E w) as [[r| |] w'] eqn:H; try reflexivity.
  apply Factory_toFactRecord_Ok_inv in H. congruence.
Qed.

(** ** The batch map *)

Section BatchMap.

Variable T : value -> M FactRecord.
Hypothesis T_run :
  forall E w, transformable E = true -> exists r, T E w = (Ok r, tick w).
Lemma ticked_tick n w : ticked n (tick w) = tick (ticked n w).
Proof. induction n as [|n IH]; simpl; [reflexivity | now rewrite IH]. Qed.

Lemma mapM_run es : forall w,
  forallb transformable es = true ->
  exists rs,
    mapM T es w = (Ok rs, ticked (List.length es) w) /\
    List.length rs = List.length es /\
    forall i E, nth_error es i = Some E ->
      exists r, nth_error rs i = Some r /\
                T E (ticked i w) = (Ok r, ticked (S i) w).
Proof.
  induction es as [|E0 es IH]; intros w Hall.
  - exists []. repeat split. intros [|i] E; discriminate.
  - simpl in Hall. apply andb_prop in Hall as [H0 Hrest].
    destruct (T_run E0 w H0) as [r0 Hr0].
    destruct (IH (tick w) Hrest) as (rs & Hrs & Hlen & Hnth).
    exists (r0 :: rs). simpl. unfold bind at 1. rewrite Hr0.
    unfold bind at 1. rewrite Hrs. unfold ret. rewrite ticked_tick.
    repeat split; [now rewrite Hlen|].
    intros [|i] E HE; simpl in *.
    + injection HE as <-. eauto.
    + destruct (Hnth i E HE) as (r & Hr & Hrun).
      rewrite !ticked_tick in Hrun. eauto.
Qed.

End BatchMap.

(** ** What a run leaves in the world *)

Lemma quiet_ret {A} (a : A) : quiet (ret a).
Proof. intros w; reflexivity. Qed.

Lemma quiet_lift {A} (o : Outcome A) : quiet (lift o).
Proof. intros w; reflexivity. Qed.

Lemma quiet_now : quiet DateTime_now.
Proof. intros w; reflexivity. Qed.

Lemma quiet_logger_info present msg args : quiet (logger_info present msg args).
Proof. intros w; unfold logger_info; destruct present; reflexivity. Qed.

Lemma quiet_bind {A B} (m : M A) (f : A -> M B) :
  quiet m -> (forall a, quiet (f a)) -> quiet (bind m f).
Proof.
  intros Hm Hf w. unfold bind. specialize (Hm w).
  destruct (m w) as [[a| |] w1]; simpl in *; auto.
  rewrite Hf. assumption.
Qed.

Create HintDb quiet.
#[local] Hint Resolve quiet_ret quiet_lift quiet_now quiet_logger_info : quiet.

Ltac quiet_chain :=
  repeat (apply quiet_bind; [auto with quiet | intros ?]); auto with quiet.

Lemma Static_toFactRecord_quiet E : quiet (Static.toFactRecord E).
Proof. unfold Static.toFactRecord. quiet_chain. Qed.

Lemma Factory_toFactRecord_quiet E : quiet (Factory.toFactRecord E).
Proof. unfold Factory.toFactRecord. quiet_chain. Qed.

Lemma quiet_mapM {A B} (f : A -> M B) xs : (forall x, quiet (f x)) -> quiet (mapM f xs).
Proof.
  intros Hf. induction xs as [|x xs IH]; simpl; [apply quiet_ret|].
  apply quiet_bind; [apply Hf|]. intros y.
  apply quiet_bind; [apply IH|]. intros ys. apply quiet_ret.
Qed.

Lemma requestToken_tokenOf a w : requestToken a w = (tokenOf a, w).
Proof.
  unfold requestToken, tokenOf. rewrite bind_lift.
  destruct (getOwnServiceCredentials a); reflexivity.
Qed.

(** The world in which the batch map of a handler starts. *)
Lemma Static_handler_run ctx w token es :
  tokenOf (auth ctx) = Ok token ->
  discovery ctx (entityFilter ctx) token = Ok es ->
  Static.handler ctx w =
  mapM Static.toFactRecord es
    (mkWorld (clock w) (ticks w) (requests w ++ [(entityFilter ctx, token)]) (logged w)).
Proof.
  intros Ht Hd. unfold Static.handler, bind at 1.
  rewrite requestToken_tokenOf, Ht.
  unfold bind at 1, CatalogClient_getEntities. rewrite Hd. reflexivity.
Qed.

Lemma Factory_handler_run cfg id ctx w token es :
  tokenOf (auth ctx) = Ok token ->
  discovery ctx (cfg ||| entityFilter ctx) token = Ok es ->
  exists w1,
    clock w1 = clock w /\ ticks w1 = ticks w /\
    requests w1 = requests w ++ [(cfg ||| entityFilter ctx, token)] /\
    Factory.handler cfg id ctx w = mapM Factory.toFactRecord es w1.
Proof.
  intros Ht Hd. unfold Factory.handler, bind at 1.
  rewrite requestToken_tokenOf, Ht.
  unfold bind at 1.
  set (m := if Boolean cfg then _ else _).
  assert (Hm : exists l, forall w0, m w0 =
            (Ok tt, mkWorld (clock w0) (ticks w0) (requests w0) (logged w0 ++ l))).
  { subst m. unfold logger_info.
    destruct (Boolean cfg), (logger ctx); eexists; intros [c t r l0];
      simpl; try reflexivity; rewrite app_nil_r; reflexivity. }
  destruct Hm as [l Hm]. rewrite Hm.
  unfold bind at 1, CatalogClient_getEntities. simpl. rewrite Hd.
  unfold bind at 1, logger_info.
  destruct (logger ctx); eexists; (split; [|split; [|split]]).
  all: cycle 3.
  1: reflexivity. 4: reflexivity. all: reflexivity.
Qed.

Lemma Static_handler_requests ctx w token :
  tokenOf (auth ctx) = Ok token ->
  requests (snd (Static.handler ctx w)) = requests w ++ [(entityFilter ctx, token)].
Proof.
  intros Ht. unfold Static.handler, bind at 1.
  rewrite requestToken_tokenOf, Ht.
  unfold bind at 1, CatalogClient_getEntities.
  destruct (discovery ctx (entityFilter ctx) token) as [es| |]; try reflexivity.
  rewrite (quiet_mapM _ es Static_toFactRecord_quiet). reflexivity.
Qed.

Lemma Factory_handler_requests cfg id ctx w token :
  tokenOf (auth ctx) = Ok token ->
  requests (snd (Factory.handler cfg id ctx w)) =
  requests w ++ [(cfg ||| entityFilter ctx, token)].
Proof.
  intros Ht. unfold Factory.handler, bind at 1.
  rewrite requestToken_tokenOf, Ht.
  unfold bind at 1.
  set (m := if Boolean cfg then _ else _).
  assert (Hq : quiet m) by (subst m; destruct (Boolean cfg); apply quiet_logger_info).
  assert (Hok : forall w0, fst (m w0) = Ok tt)
    by (subst m; intros w0; destruct (Boolean cfg); reflexivity).
  specialize (Hq w). specialize (Hok w).
  destruct (m w) as [o w1]; simpl in Hq, Hok; subst o.
  unfold bind at 1, CatalogClient_getEntities.
  destruct (discovery ctx _ token) as [es| |]; simpl; try (now rewrite Hq).
  match goal with
  | |- requests (snd (bind ?a ?k ?w2)) = _ =>
      assert (H2 : quiet (bind a k)); [| rewrite (H2 w2); simpl; now rewrite Hq ]
  end.
  apply quiet_bind; [apply quiet_logger_info|].
  intros _. apply quiet_mapM, Factory_toFactRecord_quiet.
Qed.

(** ** Facts do not depend on the world *)

Lemma worldBlind_bind_lift {A} (o : Outcome A) (f : A -> M FactRecord) :
  (forall a, worldBlind (f a)) -> worldBlind (bind (lift o) f).
Proof.
  intros Hf w1 w2. rewrite !bind_lift.
  destruct o; [apply Hf | reflexivity | reflexivity].
Qed.

Lemma worldBlind_stamp ref fs :
  worldBlind (now <- DateTime_now ;; ret (mkFactRecord ref fs now)).
Proof. intros w1 w2; reflexivity. Qed.

Lemma Static_toFactRecord_worldBlind E : worldBlind (Static.toFactRecord E).
Proof.
  unfold Static.toFactRecord.
  repeat (apply worldBlind_bind_lift; intros ?).
  apply worldBlind_stamp.
Qed.

Lemma Factory_toFactRecord_worldBlind E : worldBlind (Factory.toFactRecord E).
Proof.
  unfold Factory.toFactRecord.
  repeat (apply worldBlind_bind_lift; intros ?).
  apply worldBlind_stamp.
Qed.

(** ** Staying within the model, and what a throw does to the batch *)

Lemma get_modelled v k : get v k <> Unmodelled.
Proof. destruct v; discriminate. Qed.

Lemma filterO_modelled s rs : filterO (typeTest s) rs <> Unmodelled.
Proof.
  induction rs as [|r rs IH]; simpl; [discriminate|].
  unfold typeTest at 1.
  destruct (get r "type") as [t| |] eqn:Hg; try discriminate.
  - destruct (filterO (typeTest s) rs); try discriminate. contradiction.
  - destruct (get_modelled _ _ Hg).
Qed.

Lemma Array_filter_modelled s v : Array_filter v (typeTest s) <> Unmodelled.
Proof. destruct v; simpl; try discriminate. apply filterO_modelled. Qed.

Lemma Object_keys_modelled v : Object_keys v <> Unmodelled.
Proof. destruct v; discriminate. Qed.

Lemma gt_modelled v n :
  match v with VStr _ | VArr _ => false | _ => true end = true ->
  gt v n <> Unmodelled.
Proof.
  destruct v; simpl; try discriminate.
  intros _. destruct (existsb _ _); discriminate.
Qed.

Lemma modelled_bind_lift {A B} (o : Outcome A) (f : A -> M B) :
  o <> Unmodelled ->
  (forall a, o = Ok a -> modelled (f a)) ->
  modelled (bind (lift o) f).
Proof.
  intros Ho Hf w. rewrite bind_lift.
  destruct o as [a| |]; [now apply Hf | discriminate | contradiction].
Qed.

Lemma modelled_stamp ref fs :
  modelled (now <- DateTime_now ;; ret (mkFactRecord ref fs now)).
Proof. intros w; discriminate. Qed.

(** A run through the reads of a transform, keeping track of what was
    read. *)
Ltac modelled_chain Hc :=
  repeat (apply modelled_bind_lift;
          [ first [ apply get_modelled
                  | apply Array_filter_modelled
                  | apply Object_keys_modelled
                  | apply gt_modelled; first [ reflexivity | exact Hc ] ]
          | let x := fresh "x" in
            let Hx := fresh "Hx" in
            intros x Hx; try (apply get_Ok_inv in Hx; destruct Hx as [_ ->]) ]);
  apply modelled_stamp.

Lemma Static_toFactRecord_modelled E :
  comparable E = true -> modelled (Static.toFactRecord E).
Proof.
  unfold comparable; intros Hc. unfold Static.toFactRecord. modelled_chain Hc.
Qed.

Lemma Factory_toFactRecord_modelled E :
  comparable E = true -> modelled (Factory.toFactRecord E).
Proof.
  unfold comparable; intros Hc. unfold Factory.toFactRecord. modelled_chain Hc.
Qed.

Lemma thrown_in_any_world (T : value -> M FactRecord) E w1 w2 e :
  worldBlind (T E) -> fst (T E w1) = Throw e -> fst (T E w2) = Throw e.
Proof.
  intros Hb H1. specialize (Hb w1 w2). unfold factsOf in Hb. rewrite H1 in Hb.
  destruct (fst (T E w2)); try discriminate. congruence.
Qed.

Section BatchThrow.

Variable T : value -> M FactRecord.
Hypothesis T_blind : forall E, worldBlind (T E).

(** No isolation: one entity the transform throws on, and the map returns
    no records. *)
Lemma mapM_throw_no_records es E e w0 :
  In E es -> fst (T E w0) = Throw e ->
  forall w, isOk (fst (mapM T es w)) = false.
Proof.
  intros Hin He. induction es as [|E0 es IH]; [destruct Hin|].
  intros w. simpl. unfold bind at 1.
  destruct (T E0 w) as [[r| |] w1] eqn:H0; try reflexivity.
  destruct Hin as [-> | Hin].
  - pose proof (thrown_in_any_world T E w0 w e (T_blind E) He) as Hw.
    rewrite H0 in Hw. discriminate Hw.
  - unfold bind at 1. specialize (IH Hin w1).
    destruct (mapM T es w1) as [[rs| |] w2]; simpl in *; congruence.
Qed.

Hypothesis T_modelled : forall E, comparable E = true -> modelled (T E).

(** On a batch that stays within the model, the map then throws. *)
Lemma mapM_throw_throws es E e w0 :
  forallb comparable es = true ->
  In E es -> fst (T E w0) = Throw e ->
  forall w, exists e', fst (mapM T es w) = Throw e'.
Proof.
  intros Hc Hin He. induction es as [|E0 es IH]; [destruct Hin|].
  simpl in Hc. apply andb_prop in Hc as [Hc0 Hc].
  intros w. simpl. unfold bind at 1.
  pose proof (T_modelled E0 Hc0 w) as Hm.
  destruct (T E0 w) as [[r| |] w1] eqn:H0; simpl in Hm.
  - destruct Hin as [-> | Hin].
    + pose proof (thrown_in_any_world T E w0 w e (T_blind E) He) as Hw.
      rewrite H0 in Hw. discriminate Hw.
    + unfold bind at 1. destruct (IH Hc Hin w1) as [e' He'].
      destruct (mapM T es w1) as [[rs| |] w2]; simpl in *; try discriminate.
      exists e'. exact He'.
  - simpl. eexists. reflexivity.
  - exfalso. apply Hm. reflexivity.
Qed.

End BatchThrow.

(** ** Reading the closed form *)

Lemma nullish_falsy v : nullish v = true -> Boolean v = false.
Proof. destruct v; simpl; congruence. Qed.

Lemma recordOf_namespace ws E now :
  fact (recordOf ws E now) "namespace" =
  prop (prop E "metadata") "namespace" ||| VStr "default".
Proof.
  rewrite <- (prop_or_obj (prop E "metadata") "namespace") by reflexivity.
  destruct ws; reflexivity.
Qed.

(** ** C1: a missing namespace is not fatal; a failing entity aborts the batch *)

(** C1, against the claim as worded: the entity [noNamespace] has no
    [metadata.namespace], and both transforms return a fact record for it. *)
Lemma C1_counterexample :
  nullish (prop (prop noNamespace "metadata") "namespace") = true /\
  isOk (fst (Static.toFactRecord noNamespace world0)) = true /\
  isOk (fst (Factory.toFactRecord noNamespace world0)) = true.
Proof. repeat split. Qed.

(** C1 (amended).  On an entity whose [metadata.namespace] is absent or
    null (the metadata object being there), neither transform fails: each
    returns a fact record whose [entity.namespace] is that absent or null
    value and whose [facts.namespace] is ["default"].  The transform runs
    per entity inside the batch map of the handler with no isolation: if
    the catalog returns a batch holding one entity on which the transform
    throws, the handler returns no records at all, and throws (the latter
    shown for batches that stay within the model, [comparable]). *)
Theorem C1_missing_namespace_returns_and_failure_aborts :
  (forall E w,
     transformable E = true ->
     nullish (prop (prop E "metadata") "namespace") = true ->
     exists r1 r2,
       Static.toFactRecord E w = (Ok r1, tick w) /\
       Factory.toFactRecord E w = (Ok r2, tick w) /\
       namespace (entity r1) = prop (prop E "metadata") "namespace" /\
       namespace (entity r2) = prop (prop E "metadata") "namespace" /\
       fact r1 "namespace" = VStr "default" /\
       fact r2 "namespace" = VStr "default")
  /\
  (forall ctx cfg id w token es E e,
     tokenOf (auth ctx) = Ok token ->
     In E es ->
     (discovery ctx (entityFilter ctx) token = Ok es ->
      fst (Static.toFactRecord E w) = Throw e ->
      isOk (fst (Static.handler ctx w)) = false /\
      (forallb comparable es = true ->
       exists e', fst (Static.handler ctx w) = Throw e')) /\
     (discovery ctx (cfg ||| entityFilter ctx) token = Ok es ->
      fst (Factory.toFactRecord E w) = Throw e ->
      isOk (fst (Factory.handler cfg id ctx w)) = false /\
      (forallb comparable es = true ->
       exists e', fst (Factory.handler cfg id ctx w) = Throw e'))).
Proof.
  split.
  - intros E w Ht Hns.
    exists (recordOf false E (clock w (ticks w))), (recordOf true E (clock w (ticks w))).
    rewrite Static_toFactRecord_run, Factory_toFactRecord_run by assumption.
    rewrite !recordOf_namespace, (or_falsy _ _ (nullish_falsy _ Hns)).
    repeat split.
  - intros ctx cfg id w token es E e Ht Hin. split; intros Hd He.
    + rewrite (Static_handler_run ctx w token es Ht Hd). split.
      * eapply mapM_throw_no_records;
          eauto using Static_toFactRecord_worldBlind.
      * intros Hc. eapply mapM_throw_throws;
          eauto using Static_toFactRecord_worldBlind, Static_toFactRecord_modelled.
    + destruct (Factory_handler_run cfg id ctx w token es Ht Hd) as (w1 & _ & _ & _ & ->).
      split.
      * eapply mapM_throw_no_records;
          eauto using Factory_toFactRecord_worldBlind.
      * intros Hc. eapply mapM_throw_throws;
          eauto using Factory_toFactRecord_worldBlind, Factory_toFactRecord_modelled.
Qed.

Lemma C1_witness :
  (exists r1 r2,
     Static.toFactRecord noNamespace world0 = (Ok r1, tick world0) /\
     Factory.toFactRecord noNamespace world0 = (Ok r2, tick world0) /\
     namespace (entity r1) = VUndefined /\
     namespace (entity r2) = VUndefined /\
     fact r1 "namespace" = VStr "default" /\
     fact r2 "namespace" = VStr "default")
  /\
  (isOk (fst (Static.handler (sampleContext [svc; noMetadata]) world0)) = false /\
   exists e', fst (Static.handler (sampleContext [svc; noMetadata]) world0) = Throw e') /\
  (isOk (fst (Factory.handler VUndefined "dynamicEntityFactRetriever"
                (sampleContext [svc; noMetadata]) world0)) = false /\
   exists e', fst (Factory.handler VUndefined "dynamicEntityFactRetriever"
                     (sampleContext [svc; noMetadata]) world0) = Throw e').
Proof.
  split.
  - apply (proj1 C1_missing_namespace_returns_and_failure_aborts noNamespace world0);
      reflexivity.
  - destruct (proj2 C1_missing_namespace_returns_and_failure_aborts
                (sampleContext [svc; noMetadata]) VUndefined "dynamicEntityFactRetriever"
                world0 "token-1" [svc; noMetadata] noMetadata
                (TypeError "Cannot read properties of undefined (reading 'namespace')"))
      as [HS HF]; [reflexivity | simpl; auto |].
    destruct (HS eq_refl eq_refl) as [S1 S2].
    destruct (HF eq_refl eq_refl) as [F1 F2].
    split; (split; [assumption|]); [apply S2 | apply F2]; reflexivity.
Defined.

(** ** C2: the keys of [facts] against the published schema *)

Lemma recordOf_keys_static E now :
  factKeys (recordOf false E now) =
  [ "entity"; "kind"; "name"; "namespace"; "metadata"; "annotations"; "labels";
    "title"; "description"; "tags"; "links"; "spec"; "owner"; "lifecycle";
    "type"; "system"; "relations"; "hasTitle"; "hasDescription"; "hasTags";
    "hasOwner"; "hasAnnotations"; "hasLabels"; "relationCount";
    "dependencyCount"; "dependentCount"; "linkCount" ].
Proof. reflexivity. Qed.

Lemma recordOf_keys_factory E now :
  factKeys (recordOf true E now) =
  [ "entity"; "kind"; "name"; "namespace"; "metadata"; "annotations"; "labels";
    "title"; "description"; "tags"; "links"; "spec"; "owner"; "lifecycle";
    "type"; "system"; "relations"; "status"; "hasTitle"; "hasDescription";
    "hasTags"; "hasOwner"; "hasAnnotations"; "hasLabels"; "relationCount";
    "dependencyCount"; "dependentCount"; "linkCount" ].
Proof. reflexivity. Qed.

(** The factory's transform does what the claim says: the keys of [facts]
    are the keys of its schema ([links] comes earlier in [facts]), and
    [status] is the entity's status or [{}]. *)
Lemma Factory_facts_match_schema E w r w' :
  Factory.toFactRecord E w = (Ok r, w') ->
  Permutation (factKeys r) (map fst Factory.schema) /\
  fact r "status" = prop E "status" ||| VObj [].
Proof.
  intros H. pose proof (Factory_toFactRecord_Ok_inv _ _ _ _ H) as Ht.
  rewrite (Factory_toFactRecord_run E w Ht) in H. injection H as <- <-.
  split; [|reflexivity].
  rewrite recordOf_keys_factory. simpl.
  do 10 apply perm_skip.
  exact (Permutation_middle
           ["spec"; "owner"; "lifecycle"; "type"; "system"; "relations"; "status";
            "hasTitle"; "hasDescription"; "hasTags"; "hasOwner"; "hasAnnotations";
            "hasLabels"; "relationCount"; "dependencyCount"; "dependentCount"]
           ["linkCount"] "links").
Qed.

(** The static handler never emits [status], which its schema declares. *)
Lemma Static_facts_omit_status E w r w' :
  Static.toFactRecord E w = (Ok r, w') ->
  ~ In "status" (factKeys r) /\ fact r "status" = VUndefined /\
  List.length (factKeys r) = 27 /\ List.length (map fst Static.schema) = 28.
Proof.
  intros H. pose proof (Static_toFactRecord_Ok_inv _ _ _ _ H) as Ht.
  rewrite (Static_toFactRecord_run E w Ht) in H. injection H as <- <-.
  rewrite recordOf_keys_static. repeat split.
  simpl. intros Hin.
  repeat (destruct Hin as [Hin|Hin]; [discriminate Hin|]). exact Hin.
Qed.

(** C2, at the end-to-end entity of the specification: the schema of the
    static retriever declares [status], the [facts] its handler builds have
    no such key (27 keys against the 28 of the schema), while the factory's
    handler emits it. *)
Theorem C2_static_handler_omits_status :
  In "status" (map fst Static.schema) /\
  (exists r, Static.toFactRecord svc world0 = (Ok r, tick world0) /\
             ~ In "status" (factKeys r) /\
             fact r "status" = VUndefined /\
             List.length (factKeys r) = 27) /\
  (exists r, Factory.toFactRecord svc world0 = (Ok r, tick world0) /\
             In "status" (factKeys r) /\
             fact r "status" = VObj []).
Proof.
  split; [simpl; tauto|]. split.
  - exists (recordOf false svc (clock world0 (ticks world0))).
    pose proof (Static_toFactRecord_run svc world0 eq_refl) as Hrun.
    split; [exact Hrun|].
    destruct (Static_facts_omit_status svc world0 _ _ Hrun) as (H1 & H2 & H3 & _).
    auto.
  - exists (recordOf true svc (clock world0 (ticks world0))).
    split; [apply Factory_toFactRecord_run; reflexivity|].
    split; [simpl; tauto | reflexivity].
Qed.

(** ** C3: the namespace fact and the namespace of the entity reference *)

(** C3, against the claim as worded: the namespace of [emptyNamespace] is
    present (the empty string), yet [facts.namespace] is ["default"], not
    the stored value. *)
Lemma C3_counterexample :
  exists r,
    Static.toFactRecord emptyNamespace world0 = (Ok r, tick world0) /\
    prop (prop emptyNamespace "metadata") "namespace" = VStr "" /\
    present (prop (prop emptyNamespace "metadata") "namespace") = true /\
    fact r "namespace" = VStr "default" /\
    fact r "namespace" <> prop (prop emptyNamespace "metadata") "namespace".
Proof.
  exists (recordOf false emptyNamespace (clock world0 (ticks world0))).
  split; [apply Static_toFactRecord_run; reflexivity|].
  repeat split. discriminate.
Qed.

(** C3 (amended).  Whenever a transform returns a record for [E]:
    [entity.namespace] is the stored [metadata.namespace] as it is, with no
    substitution; [facts.namespace] is the stored value when that value is
    truthy (for a string: not empty) and ["default"] otherwise, that is when
    it is absent, null or the empty string. *)
Theorem C3_namespace_fact_and_ref E w r w' :
  Static.toFactRecord E w = (Ok r, w') \/ Factory.toFactRecord E w = (Ok r, w') ->
  let ns := prop (prop E "metadata") "namespace" in
  namespace (entity r) = ns /\
  (Boolean ns = true -> fact r "namespace" = ns) /\
  (Boolean ns = false -> fact r "namespace" = VStr "default") /\
  (forall s, ns = VStr s -> s <> "" -> fact r "namespace" = VStr s) /\
  (nullish ns = true \/ ns = VStr "" -> fact r "namespace" = VStr "default").
Proof.
  intros H ns.
  destruct (returned_record _ _ _ _ H) as (_ & _ & ws & ->).
  rewrite recordOf_namespace. fold ns.
  split; [reflexivity|].
  split; [apply or_truthy_l|].
  split; [apply or_falsy|].
  split.
  - intros s -> Hs. apply or_truthy_l. simpl.
    destruct (String.eqb_spec s ""); [contradiction | reflexivity].
  - intros [Hn | ->]; apply or_falsy; [now apply nullish_falsy | reflexivity].
Qed.

Lemma C3_witness :
  exists r,
    Factory.toFactRecord lib world0 = (Ok r, tick world0) /\
    namespace (entity r) = VStr "payments" /\
    fact r "namespace" = VStr "payments".
Proof.
  exists (recordOf true lib (clock world0 (ticks world0))).
  assert (Hrun : Factory.toFactRecord lib world0 =
                 (Ok (recordOf true lib (clock world0 (ticks world0))), tick world0))
    by (apply Factory_toFactRecord_run; reflexivity).
  destruct (C3_namespace_fact_and_ref lib world0 _ _ (or_intror Hrun))
    as (H1 & H2 & _).
  split; [exact Hrun|]. split; [exact H1 | apply H2; reflexivity].
Defined.

(** ** C4: the configured filter wins over the caller's *)

(** C4.  A descriptor built with a static filter expression queries the
    catalog with that filter, whatever filter the context carries; a
    descriptor built without [filterConfig] queries with the filter of the
    context.  (The request is the one [requests] gains during the run.) *)
Theorem C4_configured_filter_takes_precedence cfg id ctx w token :
  tokenOf (auth ctx) = Ok token ->
  (isFilterExpression cfg = true ->
   requests (snd (handler (Factory.createDynamicEntityFactRetriever cfg id) ctx w)) =
   requests w ++ [(cfg, token)]) /\
  (cfg = VUndefined ->
   requests (snd (handler (Factory.createDynamicEntityFactRetriever cfg id) ctx w)) =
   requests w ++ [(entityFilter ctx, token)]).
Proof.
  intros Ht. unfold Factory.createDynamicEntityFactRetriever. simpl handler.
  rewrite (Factory_handler_requests _ _ _ _ _ Ht).
  split.
  - intros Hc. rewrite or_truthy_l; [reflexivity|].
    destruct cfg; try discriminate; reflexivity.
  - intros ->. reflexivity.
Qed.

Lemma C4_witness :
  requests (snd (handler Factory.dynamicEntityFactRetrieverComponents
                   (sampleContext [svc]) world0)) =
    [(VObj [("kind", VArr [VStr "Component"])], "token-1")] /\
  requests (snd (handler Factory.dynamicEntityFactRetriever
                   (sampleContext [svc]) world0)) =
    [(VObj [("kind", VArr [VStr "API"])], "token-1")].
Proof.
  split.
  - apply (C4_configured_filter_takes_precedence
             (VObj [("kind", VArr [VStr "Component"])])
             (Some "dynamicEntityFactRetrieverComponents")
             (sampleContext [svc]) world0 "token-1"); reflexivity.
  - apply (C4_configured_filter_takes_precedence
             VUndefined None (sampleContext [svc]) world0 "token-1"); reflexivity.
Defined.

(** ** C5 and C7: counting relations *)

Lemma strictEqStr_true v s : strictEqStr v s = true <-> v = VStr s.
Proof.
  destruct v; simpl; split; try discriminate.
  - intros H%String.eqb_eq. now subst.
  - intros [= ->]. apply String.eqb_refl.
Qed.

Lemma strictEqStr_false v s : strictEqStr v s = false <-> v <> VStr s.
Proof.
  rewrite <- strictEqStr_true. destruct (strictEqStr v s); split; congruence.
Qed.

Lemma filter_length_perm {A} (p : A -> bool) l l' :
  Permutation l l' -> List.length (filter p l) = List.length (filter p l').
Proof.
  induction 1 as [|x l l' _ IH|x y l|l l' l'' _ IH1 _ IH2]; simpl.
  - reflexivity.
  - destruct (p x); simpl; congruence.
  - destruct (p x), (p y); reflexivity.
  - congruence.
Qed.

Lemma filter_all {A} (p : A -> bool) l :
  Forall (fun x => p x = true) l -> filter p l = l.
Proof. induction 1 as [|x l Hx _ IH]; simpl; [|rewrite Hx, IH]; reflexivity. Qed.

Lemma filter_none {A} (p : A -> bool) l :
  Forall (fun x => p x = false) l -> filter p l = [].
Proof. induction 1 as [|x l Hx _ IH]; simpl; [|rewrite Hx, IH]; reflexivity. Qed.

(** A relation has one type: the two filters select disjoint entries. *)
Lemma filters_disjoint rs :
  (List.length (filter (typeIs "dependsOn") rs)
   + List.length (filter (typeIs "dependencyOf") rs) <= List.length rs)%nat.
Proof.
  induction rs as [|r rs IH]; simpl; [lia|].
  destruct (typeIs "dependsOn" r) eqn:H1, (typeIs "dependencyOf" r) eqn:H2;
    simpl; try lia.
  unfold typeIs in H1, H2. apply strictEqStr_true in H1, H2. congruence.
Qed.

Lemma recordOf_counts ws E now rs :
  prop E "relations" ||| VArr [] = VArr rs ->
  fact (recordOf ws E now) "dependencyCount"
    = VNum (Z.of_nat (List.length (filter (typeIs "dependsOn") rs))) /\
  fact (recordOf ws E now) "dependentCount"
    = VNum (Z.of_nat (List.length (filter (typeIs "dependencyOf") rs))) /\
  fact (recordOf ws E now) "relationCount" = VNum (Z.of_nat (List.length rs)).
Proof.
  intros Hrs.
  assert (H : forall ws,
    fact (recordOf ws E now) "dependencyCount"
    = VNum (Z.of_nat (List.length (filter (typeIs "dependsOn")
         match prop E "relations" ||| VArr [] with VArr l => l | _ => [] end))) /\
    fact (recordOf ws E now) "dependentCount"
    = VNum (Z.of_nat (List.length (filter (typeIs "dependencyOf")
         match prop E "relations" ||| VArr [] with VArr l => l | _ => [] end))) /\
    fact (recordOf ws E now) "relationCount"
    = prop (prop E "relations" ||| VArr []) "length")
    by (intros []; repeat split).
  specialize (H ws). rewrite Hrs in H. exact H.
Qed.

(** C5.  For an entity whose [relations] hold, in any order, the entries
    [l1] of type ["dependsOn"], the entries [l2] of type ["dependencyOf"]
    and the entries [l3] of other types, both transforms return a record
    with [dependencyCount = |l1|], [dependentCount = |l2|] and
    [relationCount = |l1| + |l2| + |l3|]. *)
Theorem C5_relation_counts E w rs l1 l2 l3 :
  transformable E = true ->
  prop E "relations" = VArr rs ->
  Permutation rs (l1 ++ l2 ++ l3) ->
  Forall (fun r => prop r "type" = VStr "dependsOn") l1 ->
  Forall (fun r => prop r "type" = VStr "dependencyOf") l2 ->
  Forall (fun r => prop r "type" <> VStr "dependsOn" /\
                   prop r "type" <> VStr "dependencyOf") l3 ->
  exists r1 r2,
    Static.toFactRecord E w = (Ok r1, tick w) /\
    Factory.toFactRecord E w = (Ok r2, tick w) /\
    (forall r, r = r1 \/ r = r2 ->
       fact r "dependencyCount" = VNum (Z.of_nat (List.length l1)) /\
       fact r "dependentCount" = VNum (Z.of_nat (List.length l2)) /\
       fact r "relationCount" =
         VNum (Z.of_nat (List.length l1 + List.length l2 + List.length l3))).
Proof.
  intros Ht Hrel Hperm H1 H2 H3.
  exists (recordOf false E (clock w (ticks w))), (recordOf true E (clock w (ticks w))).
  split; [now apply Static_toFactRecord_run|].
  split; [now apply Factory_toFactRecord_run|].
  assert (Hrs : prop E "relations" ||| VArr [] = VArr rs) by (now rewrite Hrel).
  assert (A1 : Forall (fun r => typeIs "dependsOn" r = true) l1)
    by (eapply Forall_impl; [|exact H1]; intros r Ha; cbv beta in *; unfold typeIs; rewrite Ha; reflexivity).
  assert (A2 : Forall (fun r => typeIs "dependsOn" r = false) l2)
    by (eapply Forall_impl; [|exact H2]; intros r Ha; cbv beta in *; unfold typeIs; rewrite Ha; reflexivity).
  assert (A3 : Forall (fun r => typeIs "dependsOn" r = false) l3)
    by (eapply Forall_impl; [|exact H3]; intros r [Ha _]; cbv beta; now apply strictEqStr_false).
  assert (B1 : Forall (fun r => typeIs "dependencyOf" r = false) l1)
    by (eapply Forall_impl; [|exact H1]; intros r Ha; cbv beta in *; unfold typeIs; rewrite Ha; reflexivity).
  assert (B2 : Forall (fun r => typeIs "dependencyOf" r = true) l2)
    by (eapply Forall_impl; [|exact H2]; intros r Ha; cbv beta in *; unfold typeIs; rewrite Ha; reflexivity).
  assert (B3 : Forall (fun r => typeIs "dependencyOf" r = false) l3)
    by (eapply Forall_impl; [|exact H3]; intros r [_ Ha]; cbv beta; now apply strictEqStr_false).
  assert (Hdep : List.length (filter (typeIs "dependsOn") rs) = List.length l1).
  { rewrite (filter_length_perm _ _ _ Hperm), !filter_app, !length_app.
    rewrite (filter_all _ l1 A1), (filter_none _ l2 A2), (filter_none _ l3 A3).
    simpl; lia. }
  assert (Hof : List.length (filter (typeIs "dependencyOf") rs) = List.length l2).
  { rewrite (filter_length_perm _ _ _ Hperm), !filter_app, !length_app.
    rewrite (filter_none _ l1 B1), (filter_all _ l2 B2), (filter_none _ l3 B3).
    simpl; lia. }
  assert (Hlen : List.length rs = (List.length l1 + List.length l2 + List.length l3)%nat).
  { rewrite (Permutation_length Hperm), !length_app. lia. }
  intros r [-> | ->];
    [ destruct (recordOf_counts false E (clock w (ticks w)) rs Hrs) as (Ha & Hb & Hc)
    | destruct (recordOf_counts true E (clock w (ticks w)) rs Hrs) as (Ha & Hb & Hc) ];
    rewrite Ha, Hb, Hc, Hdep, Hof, Hlen; repeat split.
Qed.

Lemma C5_witness :
  exists r1 r2,
    Static.toFactRecord lib world0 = (Ok r1, tick world0) /\
    Factory.toFactRecord lib world0 = (Ok r2, tick world0) /\
    (forall r, r = r1 \/ r = r2 ->
       fact r "dependencyCount" = VNum 1 /\
       fact r "dependentCount" = VNum 1 /\
       fact r "relationCount" = VNum 3).
Proof.
  apply (C5_relation_counts lib world0
           [ VObj [("type", VStr "partOf"); ("targetRef", VStr "system:payments/core")];
             VObj [("type", VStr "dependsOn"); ("targetRef", VStr "x")];
             VObj [("type", VStr "dependencyOf"); ("targetRef", VStr "z")] ]
           [ VObj [("type", VStr "dependsOn"); ("targetRef", VStr "x")] ]
           [ VObj [("type", VStr "dependencyOf"); ("targetRef", VStr "z")] ]
           [ VObj [("type", VStr "partOf"); ("targetRef", VStr "system:payments/core")] ]).
  - reflexivity.
  - reflexivity.
  - apply (Permutation_cons_append
             [ VObj [("type", VStr "dependsOn"); ("targetRef", VStr "x")];
               VObj [("type", VStr "dependencyOf"); ("targetRef", VStr "z")] ]).
  - repeat constructor.
  - repeat constructor.
  - repeat constructor; discriminate.
Defined.

(** C7.  In every record a transform returns, the three counts are numbers
    with [dependencyCount + dependentCount <= relationCount]. *)
Theorem C7_directed_counts_within_total E w r w' :
  Static.toFactRecord E w = (Ok r, w') \/ Factory.toFactRecord E w = (Ok r, w') ->
  exists a b c : Z,
    fact r "dependencyCount" = VNum a /\
    fact r "dependentCount" = VNum b /\
    fact r "relationCount" = VNum c /\
    (0 <= a /\ 0 <= b /\ a + b <= c)%Z.
Proof.
  intros H.
  destruct (returned_record _ _ _ _ H) as (Ht & _ & ws & ->).
  destruct (transformable_inv _ Ht) as (_ & _ & (rs & Hrs & _) & _).
  destruct (recordOf_counts ws E (clock w (ticks w)) rs Hrs) as (Ha & Hb & Hc).
  do 3 eexists. repeat split; try eassumption; try lia.
  pose proof (filters_disjoint rs). lia.
Qed.

Lemma C7_witness :
  exists r a b c,
    Factory.toFactRecord lib world0 = (Ok r, tick world0) /\
    fact r "dependencyCount" = VNum a /\
    fact r "dependentCount" = VNum b /\
    fact r "relationCount" = VNum c /\
    (0 <= a /\ 0 <= b /\ a + b <= c)%Z.
Proof.
  assert (Hrun : Factory.toFactRecord lib world0 =
                 (Ok (recordOf true lib (clock world0 (ticks world0))), tick world0))
    by (apply Factory_toFactRecord_run; reflexivity).
  destruct (C7_directed_counts_within_total lib world0 _ _ (or_intror Hrun))
    as (a & b & c & H).
  exists (recordOf true lib (clock world0 (ticks world0))), a, b, c.
  split; [exact Hrun | exact H].
Defined.

(** ** C6 and C10: the boolean flags and the shortcut values *)

Lemma recordOf_flags ws E now :
  let md := prop E "metadata" ||| VObj [] in
  let sp := prop E "spec" ||| VObj [] in
  fact (recordOf ws E now) "hasTitle" = VBool (Boolean (prop md "title")) /\
  fact (recordOf ws E now) "hasDescription" = VBool (Boolean (prop md "description")) /\
  fact (recordOf ws E now) "hasOwner" = VBool (Boolean (prop sp "owner")) /\
  fact (recordOf ws E now) "hasTags" =
    VBool match gt (prop (prop md "tags" ||| VArr []) "length") 0 with
          | Ok b => b
          | _ => false
          end /\
  fact (recordOf ws E now) "hasAnnotations" =
    VBool (0 <? Z.of_nat (List.length (keysOf (prop md "annotations" ||| VObj []))))%Z /\
  fact (recordOf ws E now) "hasLabels" =
    VBool (0 <? Z.of_nat (List.length (keysOf (prop md "labels" ||| VObj []))))%Z /\
  fact (recordOf ws E now) "title" = prop md "title" ||| VNull /\
  fact (recordOf ws E now) "description" = prop md "description" ||| VNull /\
  fact (recordOf ws E now) "owner" = prop sp "owner" ||| VNull.
Proof. destruct ws; repeat split. Qed.

Lemma Boolean_optString v : optString v = true -> Boolean v = nonEmptyString v.
Proof. destruct v; simpl; congruence. Qed.

Lemma hasTags_optArray v :
  optArray v = true ->
  match gt (prop (v ||| VArr []) "length") 0 with Ok b => b | _ => false end
  = nonEmptyArray v.
Proof.
  destruct v as [| | | | |items|]; simpl; try discriminate; try reflexivity.
  intros _. destruct items; reflexivity.
Qed.

Lemma hasKeys_optObject v :
  optObject v = true ->
  (0 <? Z.of_nat (List.length (keysOf (v ||| VObj []))))%Z = hasKey v.
Proof.
  destruct v as [| | | | | |fields]; simpl; try discriminate; try reflexivity.
  intros _. destruct fields; reflexivity.
Qed.

Lemma flags_of_recordOf ws E now :
  let metadata := prop E "metadata" in
  let spec := prop E "spec" in
  let r := recordOf ws E now in
  (optString (prop metadata "title") = true ->
   fact r "hasTitle" = VBool (nonEmptyString (prop metadata "title"))) /\
  (optString (prop metadata "description") = true ->
   fact r "hasDescription" = VBool (nonEmptyString (prop metadata "description"))) /\
  (optString (prop spec "owner") = true ->
   fact r "hasOwner" = VBool (nonEmptyString (prop spec "owner"))) /\
  (optArray (prop metadata "tags") = true ->
   fact r "hasTags" = VBool (nonEmptyArray (prop metadata "tags"))) /\
  (optObject (prop metadata "annotations") = true ->
   fact r "hasAnnotations" = VBool (hasKey (prop metadata "annotations"))) /\
  (optObject (prop metadata "labels") = true ->
   fact r "hasLabels" = VBool (hasKey (prop metadata "labels"))).
Proof.
  intros metadata spec r. subst r.
  destruct (recordOf_flags ws E now) as (H1 & H2 & H3 & H4 & H5 & H6 & _).
  rewrite !prop_or_obj in * by reflexivity.
  fold metadata spec in H1, H2, H3, H4, H5, H6.
  rewrite H1, H2, H3, H4, H5, H6.
  repeat split; intros Hty.
  - now rewrite Boolean_optString.
  - now rewrite Boolean_optString.
  - now rewrite Boolean_optString.
  - now rewrite hasTags_optArray.
  - now rewrite hasKeys_optObject.
  - now rewrite hasKeys_optObject.
Qed.

(** C6.  On every entity the transforms accept, both return a record, and
    in each of the two: [hasTitle], [hasDescription] and [hasOwner] tell
    whether [metadata.title], [metadata.description] and [spec.owner] are
    non-empty strings, these fields being strings when present; [hasTags]
    tells whether [metadata.tags], a sequence when present, is non-empty;
    [hasAnnotations] and [hasLabels] tell whether the mapping, when present,
    has a key. *)
Theorem C6_presence_flags E w :
  transformable E = true ->
  let metadata := prop E "metadata" in
  let spec := prop E "spec" in
  exists r1 r2,
    Static.toFactRecord E w = (Ok r1, tick w) /\
    Factory.toFactRecord E w = (Ok r2, tick w) /\
    forall r, r = r1 \/ r = r2 ->
      (optString (prop metadata "title") = true ->
       fact r "hasTitle" = VBool (nonEmptyString (prop metadata "title"))) /\
      (optString (prop metadata "description") = true ->
       fact r "hasDescription" = VBool (nonEmptyString (prop metadata "description"))) /\
      (optString (prop spec "owner") = true ->
       fact r "hasOwner" = VBool (nonEmptyString (prop spec "owner"))) /\
      (optArray (prop metadata "tags") = true ->
       fact r "hasTags" = VBool (nonEmptyArray (prop metadata "tags"))) /\
      (optObject (prop metadata "annotations") = true ->
       fact r "hasAnnotations" = VBool (hasKey (prop metadata "annotations"))) /\
      (optObject (prop metadata "labels") = true ->
       fact r "hasLabels" = VBool (hasKey (prop metadata "labels"))).
Proof.
  intros Ht metadata spec.
  exists (recordOf false E (clock w (ticks w))), (recordOf true E (clock w (ticks w))).
  split; [now apply Static_toFactRecord_run|].
  split; [now apply Factory_toFactRecord_run|].
  intros r [-> | ->]; apply flags_of_recordOf.
Qed.

Lemma C6_witness :
  exists r1 r2,
    Static.toFactRecord lib world0 = (Ok r1, tick world0) /\
    Factory.toFactRecord lib world0 = (Ok r2, tick world0) /\
    forall r, r = r1 \/ r = r2 ->
      fact r "hasTitle" = VBool false /\
      fact r "hasDescription" = VBool true /\
      fact r "hasOwner" = VBool false /\
      fact r "hasTags" = VBool false /\
      fact r "hasAnnotations" = VBool true /\
      fact r "hasLabels" = VBool false.
Proof.
  destruct (C6_presence_flags lib world0 eq_refl) as (r1 & r2 & HS & HF & Hflags).
  exists r1, r2. split; [exact HS|]. split; [exact HF|].
  intros r Hr. destruct (Hflags r Hr) as (H1 & H2 & H3 & H4 & H5 & H6).
  split; [apply H1; reflexivity|].
  split; [apply H2; reflexivity|].
  split; [apply H3; reflexivity|].
  split; [apply H4; reflexivity|].
  split; [apply H5; reflexivity | apply H6; reflexivity].
Defined.

(** C10.  In every record a transform returns, each shortcut is [null]
    exactly when its flag is [false]: [title] with [hasTitle], [description]
    with [hasDescription], [owner] with [hasOwner]; an empty-string title,
    description or owner gives [null]. *)
Theorem C10_shortcuts_agree_with_flags E w r w' :
  Static.toFactRecord E w = (Ok r, w') \/ Factory.toFactRecord E w = (Ok r, w') ->
  (fact r "title" = VNull <-> fact r "hasTitle" = VBool false) /\
  (fact r "description" = VNull <-> fact r "hasDescription" = VBool false) /\
  (fact r "owner" = VNull <-> fact r "hasOwner" = VBool false) /\
  (prop (prop E "metadata") "title" = VStr "" -> fact r "title" = VNull) /\
  (prop (prop E "metadata") "description" = VStr "" -> fact r "description" = VNull) /\
  (prop (prop E "spec") "owner" = VStr "" -> fact r "owner" = VNull).
Proof.
  intros H.
  destruct (returned_record _ _ _ _ H) as (_ & _ & ws & ->).
  destruct (recordOf_flags ws E (clock w (ticks w)))
    as (H1 & H2 & H3 & _ & _ & _ & H7 & H8 & H9).
  rewrite H1, H2, H3, H7, H8, H9.
  assert (Hflag : forall v, v ||| VNull = VNull <-> VBool (Boolean v) = VBool false).
  { intros v. rewrite or_null_iff. split; [intros ->; reflexivity | now intros [= ->]]. }
  rewrite !prop_or_obj by reflexivity.
  repeat split; try apply Hflag; intros ->; reflexivity.
Qed.

Lemma C10_witness :
  exists r,
    Static.toFactRecord lib world0 = (Ok r, tick world0) /\
    fact r "title" = VNull /\ fact r "hasTitle" = VBool false.
Proof.
  assert (Hrun : Static.toFactRecord lib world0 =
                 (Ok (recordOf false lib (clock world0 (ticks world0))), tick world0))
    by (apply Static_toFactRecord_run; reflexivity).
  destruct (C10_shortcuts_agree_with_flags lib world0 _ _ (or_introl Hrun))
    as (H1 & _ & _ & H4 & _).
  exists (recordOf false lib (clock world0 (ticks world0))).
  split; [exact Hrun|].
  assert (Ht : fact (recordOf false lib (clock world0 (ticks world0))) "title" = VNull)
    by (apply H4; reflexivity).
  split; [exact Ht | apply H1; exact Ht].
Defined.

(** ** C8: the facts are a function of the entity alone *)

(** C8.  Two runs of a transform on the same entity, in whatever worlds
    (whatever the clock answers), end alike and, when they return, return
    the same [facts]; only the timestamp can differ. *)
Theorem C8_facts_depend_on_entity_only E w1 w2 :
  factsOf (Static.toFactRecord E w1) = factsOf (Static.toFactRecord E w2) /\
  factsOf (Factory.toFactRecord E w1) = factsOf (Factory.toFactRecord E w2).
Proof.
  split.
  - apply Static_toFactRecord_worldBlind.
  - apply Factory_toFactRecord_worldBlind.
Qed.

(** ** C9: the handler maps the batch in order *)

(** C9.  When the token is granted and the catalog answers the entities
    [es], all of which the transform accepts, each handler returns a
    sequence [rs] of the same length whose [i]-th record is what the
    transform returns for the [i]-th entity, run after the [i] records
    before it. *)
Theorem C9_handler_maps_in_order ctx cfg id w token es :
  tokenOf (auth ctx) = Ok token ->
  forallb transformable es = true ->
  (discovery ctx (entityFilter ctx) token = Ok es ->
   exists rs w1 w',
     Static.handler ctx w = (Ok rs, w') /\
     clock w1 = clock w /\ ticks w1 = ticks w /\
     List.length rs = List.length es /\
     forall i E, nth_error es i = Some E ->
       exists r, nth_error rs i = Some r /\
                 Static.toFactRecord E (ticked i w1) = (Ok r, ticked (S i) w1)) /\
  (discovery ctx (cfg ||| entityFilter ctx) token = Ok es ->
   exists rs w1 w',
     Factory.handler cfg id ctx w = (Ok rs, w') /\
     clock w1 = clock w /\ ticks w1 = ticks w /\
     List.length rs = List.length es /\
     forall i E, nth_error es i = Some E ->
       exists r, nth_error rs i = Some r /\
                 Factory.toFactRecord E (ticked i w1) = (Ok r, ticked (S i) w1)).
Proof.
  intros Ht Hall. split; intros Hd.
  - rewrite (Static_handler_run ctx w token es Ht Hd).
    set (w1 := mkWorld _ _ _ _).
    destruct (mapM_run Static.toFactRecord
                (fun E w0 H => ex_intro _ _ (Static_toFactRecord_run E w0 H))
                es w1 Hall) as (rs & Hrun & Hlen & Hnth).
    exists rs, w1, (ticked (List.length es) w1). repeat split; assumption.
  - destruct (Factory_handler_run cfg id ctx w token es Ht Hd)
      as (w1 & Hc & Hk & _ & ->).
    destruct (mapM_run Factory.toFactRecord
                (fun E w0 H => ex_intro _ _ (Factory_toFactRecord_run E w0 H))
                es w1 Hall) as (rs & Hrun & Hlen & Hnth).
    exists rs, w1, (ticked (List.length es) w1). repeat split; assumption.
Qed.

Lemma C9_witness :
  exists rs w1 w',
    Factory.handler (VObj [("kind", VArr [VStr "Component"])])
      "dynamicEntityFactRetrieverComponents" (sampleContext [svc; lib]) world0
    = (Ok rs, w') /\
    clock w1 = clock world0 /\ ticks w1 = ticks world0 /\
    List.length rs = 2%nat /\
    forall i E, nth_error [svc; lib] i = Some E ->
      exists r, nth_error rs i = Some r /\
                Factory.toFactRecord E (ticked i w1) = (Ok r, ticked (S i) w1).
Proof.
  apply (C9_handler_maps_in_order (sampleContext [svc; lib])
           (VObj [("kind", VArr [VStr "Component"])])
           "dynamicEntityFactRetrieverComponents" world0 "token-1" [svc; lib]);
    reflexivity.
Defined.

(** * Further properties of the two retrievers *)

(** ** When the transform returns, and what it does to the world *)

(** X2.  On every entity of the data model's shape both transforms return
    a record, after exactly one reading of the clock, which is the record's
    timestamp. *)
Theorem X2_total_on_entities E w :
  isEntity E = true ->
  exists r1 r2,
    Static.toFactRecord E w = (Ok r1, tick w) /\
    Factory.toFactRecord E w = (Ok r2, tick w) /\
    timestamp r1 = clock w (ticks w) /\
    timestamp r2 = clock w (ticks w).
Proof.
  intros H%isEntity_transformable.
  exists (recordOf false E (clock w (ticks w))), (recordOf true E (clock w (ticks w))).
  rewrite Static_toFactRecord_run, Factory_toFactRecord_run by assumption.
  repeat split.
Qed.

Lemma X2_witness :
  exists r1 r2,
    Static.toFactRecord full world0 = (Ok r1, tick world0) /\
    Factory.toFactRecord full world0 = (Ok r2, tick world0) /\
    timestamp r1 = 1700000000000%Z /\
    timestamp r2 = 1700000000000%Z.
Proof. apply (X2_total_on_entities full world0). reflexivity. Defined.

Lemma stamping_bind_lift {A B} (o : Outcome A) (f : A -> M B) :
  (forall a, stamping (f a)) -> stamping (bind (lift o) f).
Proof.
  intros Hf w. rewrite bind_lift. destruct o; [apply Hf | reflexivity | reflexivity].
Qed.

Lemma stamping_stamp ref fs :
  stamping (now <- DateTime_now ;; ret (mkFactRecord ref fs now)).
Proof. intros w; reflexivity. Qed.

Lemma Static_toFactRecord_stamping E : stamping (Static.toFactRecord E).
Proof.
  unfold Static.toFactRecord.
  repeat (apply stamping_bind_lift; intros ?).
  apply stamping_stamp.
Qed.

Lemma Factory_toFactRecord_stamping E : stamping (Factory.toFactRecord E).
Proof.
  unfold Factory.toFactRecord.
  repeat (apply stamping_bind_lift; intros ?).
  apply stamping_stamp.
Qed.

Lemma Static_throws E w :
  comparable E = true -> transformable E = false ->
  exists e, Static.toFactRecord E w = (Throw e, w).
Proof.
  intros Hc Hn.
  pose proof (Static_not_transformable E w Hn) as Hf.
  pose proof (Static_toFactRecord_modelled E Hc w) as Hm.
  pose proof (Static_toFactRecord_stamping E w) as Hs.
  destruct (Static.toFactRecord E w) as [[r| |] w1]; simpl in *;
    [discriminate | subst w1; eauto | contradiction].
Qed.

Lemma Factory_throws E w :
  comparable E = true -> transformable E = false ->
  exists e, Factory.toFactRecord E w = (Throw e, w).
Proof.
  intros Hc Hn.
  pose proof (Factory_not_transformable E w Hn) as Hf.
  pose proof (Factory_toFactRecord_modelled E Hc w) as Hm.
  pose proof (Factory_toFactRecord_stamping E w) as Hs.
  destruct (Factory.toFactRecord E w) as [[r| |] w1]; simpl in *;
    [discriminate | subst w1; eauto | contradiction].
Qed.

(** X1.  On an entity whose [tags.length] is not a string or an array
    (every entity whose tags are absent or a sequence), each transform
    returns a record when the entity and its metadata are neither
    [undefined] nor [null], [relations] is falsy or an array without
    [undefined] or [null] entries and [tags.length] compares with 0 without
    throwing ([transformable]), and throws otherwise, leaving the world as
    it was. *)
Theorem X1_returns_or_throws E w :
  comparable E = true ->
  (transformable E = true ->
   exists r1 r2, Static.toFactRecord E w = (Ok r1, tick w) /\
                 Factory.toFactRecord E w = (Ok r2, tick w)) /\
  (transformable E = false ->
   (exists e, Static.toFactRecord E w = (Throw e, w)) /\
   (exists e, Factory.toFactRecord E w = (Throw e, w))).
Proof.
  intros Hc. split; intros Ht.
  - rewrite Static_toFactRecord_run, Factory_toFactRecord_run by assumption. eauto.
  - split; [now apply Static_throws | now apply Factory_throws].
Qed.

Lemma X1_witness :
  (exists r1 r2, Static.toFactRecord svc world0 = (Ok r1, tick world0) /\
                 Factory.toFactRecord svc world0 = (Ok r2, tick world0)) /\
  (exists e, Static.toFactRecord noMetadata world0 = (Throw e, world0)) /\
  (exists e, Factory.toFactRecord noMetadata world0 = (Throw e, world0)).
Proof.
  split.
  - apply (X1_returns_or_throws svc world0); reflexivity.
  - apply (X1_returns_or_throws noMetadata world0); reflexivity.
Defined.

(** X3.  A transform that throws has not read the clock: it leaves the
    world exactly as it found it, whereas one that returns has read the
    clock once and changed nothing else. *)
Theorem X3_thrown_transform_leaves_world E w :
  (forall e w', Static.toFactRecord E w = (Throw e, w') -> w' = w) /\
  (forall e w', Factory.toFactRecord E w = (Throw e, w') -> w' = w) /\
  (forall r w', Static.toFactRecord E w = (Ok r, w') -> w' = tick w) /\
  (forall r w', Factory.toFactRecord E w = (Ok r, w') -> w' = tick w).
Proof.
  pose proof (Static_toFactRecord_stamping E w) as HS.
  pose proof (Factory_toFactRecord_stamping E w) as HF.
  repeat split; intros x w' H; rewrite H in *; simpl in *; assumption.
Qed.

Lemma X3_witness :
  snd (Static.toFactRecord nullRelation world0) = world0 /\
  snd (Factory.toFactRecord full world0) = tick world0.
Proof.
  destruct (X3_thrown_transform_leaves_world nullRelation world0) as (H1 & _).
  destruct (X3_thrown_transform_leaves_world full world0) as (_ & _ & _ & H4).
  split.
  - apply (H1 (TypeError "Cannot read properties of null (reading 'type')")).
    reflexivity.
  - apply (H4 (recordOf true full (clock world0 (ticks world0)))).
    rewrite (Factory_toFactRecord_run full world0 eq_refl). reflexivity.
Defined.

(** ** The errors of the transform *)

(** X4.  The guard [entity.metadata || {}] does not protect the entity
    reference: on an entity without metadata (its relations being in
    order) both transforms throw the [TypeError] of reading [namespace]
    from [undefined], or from [null] when the metadata is [null]. *)
Theorem X4_missing_metadata_throws E w rs :
  nullish E = false ->
  nullish (prop E "metadata") = true ->
  prop E "relations" ||| VArr [] = VArr rs ->
  forallb present rs = true ->
  let thrown :=
    Throw (TypeError ("Cannot read properties of "
                      ++ match prop E "metadata" with VNull => "null" | _ => "undefined" end
                      ++ " (reading 'namespace')")) in
  Static.toFactRecord E w = (thrown, w) /\
  Factory.toFactRecord E w = (thrown, w).
Proof.
  intros HE Hmd Hrs Hp thrown. subst thrown.
  split.
  - unfold Static.toFactRecord. repeat run_step. rewrite bind_lift.
    destruct (prop E "metadata"); try discriminate Hmd; reflexivity.
  - unfold Factory.toFactRecord. repeat run_step. rewrite bind_lift.
    destruct (prop E "metadata"); try discriminate Hmd; reflexivity.
Qed.

Lemma X4_witness :
  Static.toFactRecord noMetadata world0
    = (Throw (TypeError "Cannot read properties of undefined (reading 'namespace')"), world0) /\
  Factory.toFactRecord noMetadata world0
    = (Throw (TypeError "Cannot read properties of undefined (reading 'namespace')"), world0).
Proof. apply (X4_missing_metadata_throws noMetadata world0 []); reflexivity. Defined.

(** X5.  When [relations] is truthy but not an array, both transforms throw
    "relations.filter is not a function". *)
Theorem X5_relations_not_an_array_throws E w :
  nullish E = false ->
  Boolean (prop E "relations") = true ->
  (forall rs, prop E "relations" <> VArr rs) ->
  Static.toFactRecord E w = (Throw (TypeError "relations.filter is not a function"), w) /\
  Factory.toFactRecord E w = (Throw (TypeError "relations.filter is not a function"), w).
Proof.
  intros HE Hb Hna.
  assert (Hf : Array_filter (prop E "relations" ||| VArr []) (typeTest "dependsOn")
               = Throw (TypeError "relations.filter is not a function")).
  { rewrite (or_truthy_l _ _ Hb).
    destruct (prop E "relations") as [| | | | |rs|]; try discriminate Hb; try reflexivity.
    destruct (Hna rs eq_refl). }
  split.
  - unfold Static.toFactRecord. repeat run_step. rewrite bind_lift, Hf. reflexivity.
  - unfold Factory.toFactRecord. repeat run_step. rewrite bind_lift, Hf. reflexivity.
Qed.

Lemma X5_witness :
  Static.toFactRecord badRelations world0
    = (Throw (TypeError "relations.filter is not a function"), world0) /\
  Factory.toFactRecord badRelations world0
    = (Throw (TypeError "relations.filter is not a function"), world0).
Proof.
  apply (X5_relations_not_an_array_throws badRelations world0);
    [reflexivity | reflexivity | intros rs; discriminate].
Defined.

Lemma filterO_null s pre post :
  forallb present pre = true ->
  filterO (typeTest s) (pre ++ VNull :: post)
  = Throw (TypeError "Cannot read properties of null (reading 'type')").
Proof.
  induction pre as [|r pre IH]; simpl; [reflexivity|].
  intros [Hr Hpre]%andb_prop.
  unfold typeTest at 1. rewrite get_present by (now apply negb_true_iff).
  rewrite (IH Hpre). reflexivity.
Qed.

(** X6.  A [null] among the relations makes both transforms throw the
    [TypeError] of reading [type] from [null]: the callback of [filter]
    reads [r.type] unguarded. *)
Theorem X6_null_relation_throws E w pre post :
  nullish E = false ->
  prop E "relations" = VArr (pre ++ VNull :: post) ->
  forallb present pre = true ->
  Static.toFactRecord E w
    = (Throw (TypeError "Cannot read properties of null (reading 'type')"), w) /\
  Factory.toFactRecord E w
    = (Throw (TypeError "Cannot read properties of null (reading 'type')"), w).
Proof.
  intros HE Hrel Hpre.
  assert (Hf : Array_filter (prop E "relations" ||| VArr []) (typeTest "dependsOn")
               = Throw (TypeError "Cannot read properties of null (reading 'type')")).
  { rewrite Hrel. simpl. now apply filterO_null. }
  split.
  - unfold Static.toFactRecord. repeat run_step. rewrite bind_lift, Hf. reflexivity.
  - unfold Factory.toFactRecord. repeat run_step. rewrite bind_lift, Hf. reflexivity.
Qed.

Lemma X6_witness :
  Static.toFactRecord nullRelation world0
    = (Throw (TypeError "Cannot read properties of null (reading 'type')"), world0) /\
  Factory.toFactRecord nullRelation world0
    = (Throw (TypeError "Cannot read properties of null (reading 'type')"), world0).
Proof.
  apply (X6_null_relation_throws nullRelation world0
           [VObj [("type", VStr "dependsOn"); ("targetRef", VStr "x")]] []);
    reflexivity.
Defined.

(** ** What the facts hold *)

Lemma recordOf_raw ws E now :
  let md := prop E "metadata" ||| VObj [] in
  fact (recordOf ws E now) "entity" = E /\
  fact (recordOf ws E now) "kind" = prop E "kind" /\
  fact (recordOf ws E now) "name" = prop md "name" /\
  fact (recordOf ws E now) "metadata" = md /\
  fact (recordOf ws E now) "spec" = prop E "spec" ||| VObj [] /\
  fact (recordOf ws E now) "relations" = prop E "relations" ||| VArr [] /\
  fact (recordOf ws E now) "annotations" = prop md "annotations" ||| VObj [] /\
  fact (recordOf ws E now) "labels" = prop md "labels" ||| VObj [] /\
  fact (recordOf ws E now) "tags" = prop md "tags" ||| VArr [] /\
  fact (recordOf ws E now) "links" = prop md "links" ||| VArr [] /\
  fact (recordOf ws E now) "linkCount" = prop (prop md "links" ||| VArr []) "length".
Proof. destruct ws; repeat split. Qed.

Lemma recordOf_shortcuts ws E now :
  let sp := prop E "spec" ||| VObj [] in
  fact (recordOf ws E now) "lifecycle" = prop sp "lifecycle" ||| VNull /\
  fact (recordOf ws E now) "type" = prop sp "type" ||| VNull /\
  fact (recordOf ws E now) "system" = prop sp "system" ||| VNull.
Proof. destruct ws; repeat split. Qed.

(** X7.  In every record a transform returns, the [entity] fact is the
    entity itself, and the entity reference agrees with the facts on [kind]
    and [name]. *)
Theorem X7_reference_agrees_with_facts E w r w' :
  Static.toFactRecord E w = (Ok r, w') \/ Factory.toFactRecord E w = (Ok r, w') ->
  fact r "entity" = E /\
  kind (entity r) = prop E "kind" /\
  fact r "kind" = kind (entity r) /\
  name (entity r) = prop (prop E "metadata") "name" /\
  fact r "name" = name (entity r).
Proof.
  intros H.
  destruct (returned_record _ _ _ _ H) as (_ & _ & ws & ->).
  destruct (recordOf_raw ws E (clock w (ticks w))) as (H1 & H2 & H3 & _).
  rewrite H1, H2, H3. rewrite prop_or_obj by reflexivity.
  repeat split.
Qed.

Lemma X7_witness :
  exists r,
    Static.toFactRecord full world0 = (Ok r, tick world0) /\
    fact r "entity" = full /\
    fact r "kind" = VStr "Component" /\
    fact r "name" = VStr "web".
Proof.
  assert (Hrun : Static.toFactRecord full world0 =
                 (Ok (recordOf false full (clock world0 (ticks world0))), tick world0))
    by (apply Static_toFactRecord_run; reflexivity).
  destruct (X7_reference_agrees_with_facts full world0 _ _ (or_introl Hrun))
    as (H1 & H2 & H3 & H4 & H5).
  exists (recordOf false full (clock world0 (ticks world0))).
  split; [exact Hrun|]. split; [exact H1|].
  split; [rewrite H3; exact H2 | rewrite H5; exact H4].
Defined.

(** X8.  Optional parts that are absent (or otherwise falsy) resolve to
    empty defaults of their kind: [spec], [annotations] and [labels] to
    [{}], [relations], [tags] and [links] to [[]]; the values derived from
    them are then [null], [false] and 0. *)
Theorem X8_absent_parts_default E w r w' :
  Static.toFactRecord E w = (Ok r, w') \/ Factory.toFactRecord E w = (Ok r, w') ->
  let md := prop E "metadata" in
  (Boolean (prop E "spec") = false ->
   fact r "spec" = VObj [] /\ fact r "owner" = VNull /\ fact r "lifecycle" = VNull /\
   fact r "type" = VNull /\ fact r "system" = VNull /\ fact r "hasOwner" = VBool false) /\
  (Boolean (prop E "relations") = false ->
   fact r "relations" = VArr [] /\ fact r "relationCount" = VNum 0 /\
   fact r "dependencyCount" = VNum 0 /\ fact r "dependentCount" = VNum 0) /\
  (Boolean (prop md "tags") = false ->
   fact r "tags" = VArr [] /\ fact r "hasTags" = VBool false) /\
  (Boolean (prop md "links") = false ->
   fact r "links" = VArr [] /\ fact r "linkCount" = VNum 0) /\
  (Boolean (prop md "annotations") = false ->
   fact r "annotations" = VObj [] /\ fact r "hasAnnotations" = VBool false) /\
  (Boolean (prop md "labels") = false ->
   fact r "labels" = VObj [] /\ fact r "hasLabels" = VBool false).
Proof.
  intros H md.
  destruct (returned_record _ _ _ _ H) as (_ & _ & ws & ->).
  destruct (recordOf_raw ws E (clock w (ticks w)))
    as (_ & _ & _ & _ & R1 & R2 & R3 & R4 & R5 & R6 & R7).
  destruct (recordOf_shortcuts ws E (clock w (ticks w))) as (S1 & S2 & S3).
  destruct (recordOf_flags ws E (clock w (ticks w)))
    as (_ & _ & F3 & F4 & F5 & F6 & _ & _ & F9).
  rewrite !(prop_or_obj (prop E "metadata")) in R3, R4, R5, R6, R7, F4, F5, F6
    by reflexivity.
  fold md in R3, R4, R5, R6, R7, F4, F5, F6.
  rewrite R1, R2, R3, R4, R5, R6, R7, S1, S2, S3, F3, F4, F5, F6, F9.
  split; [|split; [|split; [|split; [|split]]]]; intros Hf.
  - rewrite (or_falsy _ _ Hf). repeat split.
  - destruct (recordOf_counts ws E (clock w (ticks w)) [])
      as (C1 & C2 & C3); [now rewrite or_falsy|].
    rewrite C1, C2, C3, (or_falsy _ _ Hf). repeat split.
  - rewrite (or_falsy _ _ Hf). repeat split.
  - rewrite (or_falsy _ _ Hf). repeat split.
  - rewrite (or_falsy _ _ Hf). repeat split.
  - rewrite (or_falsy _ _ Hf). repeat split.
Qed.

Lemma X8_witness :
  exists r,
    Factory.toFactRecord bare world0 = (Ok r, tick world0) /\
    fact r "spec" = VObj [] /\ fact r "owner" = VNull /\
    fact r "relations" = VArr [] /\ fact r "relationCount" = VNum 0 /\
    fact r "tags" = VArr [] /\ fact r "hasTags" = VBool false /\
    fact r "links" = VArr [] /\ fact r "linkCount" = VNum 0 /\
    fact r "annotations" = VObj [] /\ fact r "hasAnnotations" = VBool false /\
    fact r "labels" = VObj [] /\ fact r "hasLabels" = VBool false.
Proof.
  assert (Hrun : Factory.toFactRecord bare world0 =
                 (Ok (recordOf true bare (clock world0 (ticks world0))), tick world0))
    by (apply Factory_toFactRecord_run; reflexivity).
  destruct (X8_absent_parts_default bare world0 _ _ (or_intror Hrun))
    as (H1 & H2 & H3 & H4 & H5 & H6).
  destruct (H1 eq_refl) as (A1 & A2 & _).
  destruct (H2 eq_refl) as (B1 & B2 & _).
  destruct (H3 eq_refl) as (C1 & C2).
  destruct (H4 eq_refl) as (D1 & D2).
  destruct (H5 eq_refl) as (E1 & E2).
  destruct (H6 eq_refl) as (G1 & G2).
  exists (recordOf true bare (clock world0 (ticks world0))).
  repeat split; assumption.
Defined.

(** X9.  Each shortcut fact is the entity's own field when that field is
    truthy (for a string: not empty) and [null] otherwise: [title] and
    [description] from the metadata, [owner], [lifecycle], [type] and
    [system] from the spec, also when the entity has no spec at all. *)
Theorem X9_shortcuts_read_the_entity E w r w' :
  Static.toFactRecord E w = (Ok r, w') \/ Factory.toFactRecord E w = (Ok r, w') ->
  let pick (v : value) := if Boolean v then v else VNull in
  fact r "title" = pick (prop (prop E "metadata") "title") /\
  fact r "description" = pick (prop (prop E "metadata") "description") /\
  fact r "owner" = pick (prop (prop E "spec") "owner") /\
  fact r "lifecycle" = pick (prop (prop E "spec") "lifecycle") /\
  fact r "type" = pick (prop (prop E "spec") "type") /\
  fact r "system" = pick (prop (prop E "spec") "system").
Proof.
  intros H pick.
  destruct (returned_record _ _ _ _ H) as (_ & _ & ws & ->).
  destruct (recordOf_shortcuts ws E (clock w (ticks w))) as (S1 & S2 & S3).
  destruct (recordOf_flags ws E (clock w (ticks w)))
    as (_ & _ & _ & _ & _ & _ & F7 & F8 & F9).
  rewrite S1, S2, S3, F7, F8, F9, !prop_or_obj by reflexivity.
  repeat split.
Qed.

Lemma X9_witness :
  exists r,
    Factory.toFactRecord full world0 = (Ok r, tick world0) /\
    fact r "title" = VStr "Web shop" /\
    fact r "owner" = VStr "team-web" /\
    fact r "lifecycle" = VStr "production" /\
    fact r "type" = VStr "website" /\
    fact r "system" = VStr "shop".
Proof.
  assert (Hrun : Factory.toFactRecord full world0 =
                 (Ok (recordOf true full (clock world0 (ticks world0))), tick world0))
    by (apply Factory_toFactRecord_run; reflexivity).
  destruct (X9_shortcuts_read_the_entity full world0 _ _ (or_intror Hrun))
    as (H1 & _ & H3 & H4 & H5 & H6).
  exists (recordOf true full (clock world0 (ticks world0))).
  repeat split; assumption.
Defined.

(** X10.  The raw facts pass the entity's own parts through unchanged
    whenever they are there (truthy): [metadata], [spec], [relations],
    [annotations], [labels], [tags], [links], and [status] in the factory's
    records; [linkCount] is the number of links. *)
Theorem X10_raw_parts_pass_through E w r w' :
  Static.toFactRecord E w = (Ok r, w') \/ Factory.toFactRecord E w = (Ok r, w') ->
  let md := prop E "metadata" in
  (Boolean md = true -> fact r "metadata" = md) /\
  (Boolean (prop E "spec") = true -> fact r "spec" = prop E "spec") /\
  (Boolean (prop E "relations") = true -> fact r "relations" = prop E "relations") /\
  (Boolean (prop md "annotations") = true -> fact r "annotations" = prop md "annotations") /\
  (Boolean (prop md "labels") = true -> fact r "labels" = prop md "labels") /\
  (Boolean (prop md "tags") = true -> fact r "tags" = prop md "tags") /\
  (forall ls, prop md "links" = VArr ls ->
     fact r "links" = VArr ls /\ fact r "linkCount" = VNum (Z.of_nat (List.length ls))) /\
  (Factory.toFactRecord E w = (Ok r, w') ->
   Boolean (prop E "status") = true -> fact r "status" = prop E "status").
Proof.
  intros H md.
  assert (Hst : Factory.toFactRecord E w = (Ok r, w') ->
                fact r "status" = prop E "status" ||| VObj [])
    by (intros HF; apply (Factory_facts_match_schema _ _ _ _ HF)).
  destruct (returned_record _ _ _ _ H) as (_ & _ & ws & ->).
  destruct (recordOf_raw ws E (clock w (ticks w)))
    as (_ & _ & _ & R0 & R1 & R2 & R3 & R4 & R5 & R6 & R7).
  rewrite !(prop_or_obj (prop E "metadata")) in R3, R4, R5, R6, R7 by reflexivity.
  fold md in R0, R3, R4, R5, R6, R7.
  rewrite R0, R1, R2, R3, R4, R5, R6, R7.
  repeat split; try (intros Hb; now rewrite (or_truthy_l _ _ Hb)).
  - match goal with Hl : prop md "links" = VArr _ |- _ => now rewrite Hl end.
  - match goal with Hl : prop md "links" = VArr _ |- _ => now rewrite Hl end.
  - intros HF Hb. rewrite (Hst HF). now apply or_truthy_l.
Qed.

Lemma X10_witness :
  exists r,
    Factory.toFactRecord full world0 = (Ok r, tick world0) /\
    fact r "spec" = prop full "spec" /\
    fact r "tags" = VArr [VStr "ts"; VStr "react"] /\
    fact r "linkCount" = VNum 2 /\
    fact r "status" = VObj [("items", VArr [])].
Proof.
  assert (Hrun : Factory.toFactRecord full world0 =
                 (Ok (recordOf true full (clock world0 (ticks world0))), tick world0))
    by (apply Factory_toFactRecord_run; reflexivity).
  destruct (X10_raw_parts_pass_through full world0 _ _ (or_intror Hrun))
    as (_ & H2 & _ & _ & _ & H6 & H7 & H8).
  exists (recordOf true full (clock world0 (ticks world0))).
  split; [exact Hrun|].
  split; [apply H2; reflexivity|].
  split; [apply H6; reflexivity|].
  split; [apply (H7 [ VObj [("url", VStr "https://shop.example")];
                      VObj [("url", VStr "https://docs.example")] ]); reflexivity|].
  apply H8; [exact Hrun | reflexivity].
Defined.

(** ** The keys of the facts *)

Lemma incl_by_search (ks sch : list string) :
  forallb (fun k => existsb (String.eqb k) sch) ks = true -> incl ks sch.
Proof.
  intros H k Hk. rewrite forallb_forall in H. specialize (H k Hk).
  apply existsb_exists in H as (k' & Hin & ->%String.eqb_eq). exact Hin.
Qed.

Lemma NoDup_by_nodup (ks : list string) : nodup string_dec ks = ks -> NoDup ks.
Proof. intros <-. apply NoDup_nodup. Qed.

(** X11.  The facts of a returned record never hold a key twice and never
    hold a key the schema does not declare: the static handler's facts are
    the schema's keys but [status], the factory's are the schema's keys. *)
Theorem X11_fact_keys_are_declared E w r w' :
  (Static.toFactRecord E w = (Ok r, w') ->
   NoDup (factKeys r) /\
   incl (factKeys r) (map fst Static.schema) /\
   forall k, In k (map fst Static.schema) -> k <> "status" -> In k (factKeys r)) /\
  (Factory.toFactRecord E w = (Ok r, w') ->
   NoDup (factKeys r) /\
   incl (factKeys r) (map fst Factory.schema) /\
   incl (map fst Factory.schema) (factKeys r)).
Proof.
  split; intros H.
  - pose proof (Static_toFactRecord_Ok_inv _ _ _ _ H) as Ht.
    rewrite (Static_toFactRecord_run E w Ht) in H. injection H as <- <-.
    rewrite recordOf_keys_static.
    split; [apply NoDup_by_nodup; reflexivity|].
    split; [apply incl_by_search; reflexivity|].
    intros k Hk Hns.
    assert (Hin : In k ("status" :: factKeys (recordOf false E 0)))
      by (apply (incl_by_search (map fst Static.schema)); [reflexivity | exact Hk]).
    destruct Hin as [<- | Hin]; [contradiction | exact Hin].
  - pose proof (Factory_toFactRecord_Ok_inv _ _ _ _ H) as Ht.
    rewrite (Factory_toFactRecord_run E w Ht) in H. injection H as <- <-.
    rewrite recordOf_keys_factory.
    split; [apply NoDup_by_nodup; reflexivity|].
    split; apply incl_by_search; reflexivity.
Qed.

Lemma X11_witness :
  exists r1 r2,
    Static.toFactRecord full world0 = (Ok r1, tick world0) /\
    Factory.toFactRecord full world0 = (Ok r2, tick world0) /\
    NoDup (factKeys r1) /\ incl (factKeys r1) (map fst Static.schema) /\
    NoDup (factKeys r2) /\ incl (map fst Factory.schema) (factKeys r2).
Proof.
  assert (H1 : Static.toFactRecord full world0 =
               (Ok (recordOf false full (clock world0 (ticks world0))), tick world0))
    by (apply Static_toFactRecord_run; reflexivity).
  assert (H2 : Factory.toFactRecord full world0 =
               (Ok (recordOf true full (clock world0 (ticks world0))), tick world0))
    by (apply Factory_toFactRecord_run; reflexivity).
  destruct (proj1 (X11_fact_keys_are_declared full world0 _ _) H1) as (A & B & _).
  destruct (proj2 (X11_fact_keys_are_declared full world0 _ _) H2) as (C & _ & D).
  do 2 eexists. repeat split; eassumption.
Defined.

(** ** The two transforms side by side *)

Lemma dropStatus_recordOf E now : dropStatus (recordOf true E now) = recordOf false E now.
Proof. reflexivity. Qed.

Lemma toFactRecord_dropStatus E w :
  Static.toFactRecord E w =
  (mapOutcome dropStatus (fst (Factory.toFactRecord E w)),
   snd (Factory.toFactRecord E w)).
Proof.
  destruct (transformable E) eqn:Ht.
  - rewrite Static_toFactRecord_run, Factory_toFactRecord_run by assumption.
    reflexivity.
  - destruct (nullish E) eqn:HE.
    { destruct E; try discriminate HE; reflexivity. }
    unfold Static.toFactRecord, Factory.toFactRecord.
    repeat (rewrite !bind_lift;
            rewrite ?(get_present E) by assumption;
            rewrite ?get_present by
              (first [ apply nullish_or_obj | apply nullish_or_arr ]);
            rewrite ?Object_keys_keysOf by apply nullish_or_obj;
            rewrite ?gt_num;
            cbv beta iota zeta;
            try match goal with
                | |- match ?o with Ok _ => _ | Throw _ => _ | Unmodelled => _ end = _ =>
                    destruct o; [ | reflexivity | reflexivity ]
                end).
    reflexivity.
Qed.

(** X12.  The two transforms differ by the [status] fact and by nothing
    else: on every entity, in every world, the static transform ends as
    the factory's does, with the same error when it throws and, when it
    returns, with the factory's record less its [status] fact. *)
Theorem X12_static_is_factory_without_status E w :
  Static.toFactRecord E w =
  (mapOutcome dropStatus (fst (Factory.toFactRecord E w)),
   snd (Factory.toFactRecord E w)).
Proof. apply toFactRecord_dropStatus. Qed.

(** ** The batch map, continued *)

Lemma clock_ticked n w : clock (ticked n w) = clock w.
Proof. induction n as [|n IH]; simpl; auto. Qed.

Lemma ticks_ticked n w : ticks (ticked n w) = (ticks w + n)%nat.
Proof. induction n as [|n IH]; simpl; [lia | rewrite IH; lia]. Qed.

Lemma requests_ticked n w : requests (ticked n w) = requests w.
Proof. induction n as [|n IH]; simpl; auto. Qed.

Lemma logged_ticked n w : logged (ticked n w) = logged w.
Proof. induction n as [|n IH]; simpl; auto. Qed.

Lemma ticked_tick' n w : ticked n (tick w) = tick (ticked n w).
Proof. induction n as [|n IH]; simpl; [reflexivity | now rewrite IH]. Qed.

Section BatchWorld.

Variable T : value -> M FactRecord.
Hypothesis T_stamping : forall E, stamping (T E).

(** The map reads the clock once per record made, and does nothing else
    to the world. *)
Lemma mapM_world es : forall w,
  exists k, (k <= List.length es)%nat /\ snd (mapM T es w) = ticked k w /\
            (isOk (fst (mapM T es w)) = true -> k = List.length es).
Proof.
  induction es as [|E es IH]; intros w; simpl.
  - exists 0%nat. split; [lia | split; reflexivity].
  - unfold bind. pose proof (T_stamping E w) as Hs.
    destruct (T E w) as [[r| |] w1]; simpl in Hs; subst w1.
    + destruct (IH (tick w)) as (k & Hk & Hw & Hok).
      exists (S k). simpl ticked. rewrite <- ticked_tick'.
      destruct (mapM T es (tick w)) as [[rs| |] w2]; simpl in *; subst w2.
      * split; [lia | split; [reflexivity|]]. intros _. now rewrite Hok.
      * split; [lia | split; [reflexivity | discriminate]].
      * split; [lia | split; [reflexivity | discriminate]].
    + exists 0%nat. split; [lia | split; [reflexivity | discriminate]].
    + exists 0%nat. split; [lia | split; [reflexivity | discriminate]].
Qed.

Hypothesis T_run :
  forall E w, transformable E = true -> exists r, T E w = (Ok r, tick w).

(** The map stops at the first entity the transform throws on, with that
    entity's error, having stamped the records before it. *)
Lemma mapM_first_failure pre E post e : forall w,
  forallb transformable pre = true ->
  fst (T E (ticked (List.length pre) w)) = Throw e ->
  mapM T (pre ++ E :: post) w = (Throw e, ticked (List.length pre) w).
Proof.
  induction pre as [|E0 pre IH]; intros w Hpre Hthrow; simpl in *.
  - unfold bind at 1. pose proof (T_stamping E w) as Hs.
    destruct (T E w) as [o w1]; simpl in *. subst o. simpl in Hs. now subst w1.
  - apply andb_prop in Hpre as [H0 Hpre].
    destruct (T_run E0 w H0) as [r0 Hr0].
    unfold bind at 1. rewrite Hr0.
    unfold bind at 1. rewrite (IH (tick w) Hpre).
    + now rewrite ticked_tick'.
    + now rewrite ticked_tick'.
Qed.

End BatchWorld.

Lemma mapM_dropStatus es : forall w,
  mapM Static.toFactRecord es w =
  (mapOutcome (map dropStatus) (fst (mapM Factory.toFactRecord es w)),
   snd (mapM Factory.toFactRecord es w)).
Proof.
  induction es as [|E es IH]; intros w; simpl; [reflexivity|].
  unfold bind at 1 3 5. rewrite toFactRecord_dropStatus.
  destruct (Factory.toFactRecord E w) as [[r| |] w1]; simpl; try reflexivity.
  unfold bind at 1 2 3. rewrite IH.
  destruct (mapM Factory.toFactRecord es w1) as [[rs| |] w2]; reflexivity.
Qed.

(** ** The handlers, step by step *)

Lemma Static_handler_unfold ctx w token :
  tokenOf (auth ctx) = Ok token ->
  Static.handler ctx w =
  match discovery ctx (entityFilter ctx) token with
  | Ok es => mapM Static.toFactRecord es (afterFetch w (entityFilter ctx) token [])
  | Throw e => (Throw e, afterFetch w (entityFilter ctx) token [])
  | Unmodelled => (Unmodelled, afterFetch w (entityFilter ctx) token [])
  end.
Proof.
  intros Ht. unfold Static.handler, bind at 1.
  rewrite requestToken_tokenOf, Ht.
  unfold bind at 1, CatalogClient_getEntities, afterFetch. rewrite app_nil_r.
  destruct (discovery ctx (entityFilter ctx) token); reflexivity.
Qed.

Lemma Factory_handler_unfold cfg id ctx w token :
  tokenOf (auth ctx) = Ok token ->
  let filter := cfg ||| entityFilter ctx in
  let lines n := if logger ctx then expectedLog cfg id ctx n else [] in
  Factory.handler cfg id ctx w =
  match discovery ctx filter token with
  | Ok es => mapM Factory.toFactRecord es (afterFetch w filter token (lines (List.length es)))
  | Throw e => (Throw e, afterFetch w filter token (firstn 1 (lines 0%nat)))
  | Unmodelled => (Unmodelled, afterFetch w filter token (firstn 1 (lines 0%nat)))
  end.
Proof.
  intros Ht filter lines. subst filter lines.
  unfold Factory.handler, bind at 1.
  rewrite requestToken_tokenOf, Ht.
  unfold bind, logger_info, CatalogClient_getEntities, afterFetch, expectedLog.
  destruct (Boolean cfg), (logger ctx); simpl;
    destruct (discovery ctx _ token); simpl;
    rewrite <- ?app_assoc, ?app_nil_r; reflexivity.
Qed.

Lemma handler_auth_failure cfg id ctx w :
  isOk (tokenOf (auth ctx)) = false ->
  Static.handler ctx w = (mapOutcome (fun _ => []) (tokenOf (auth ctx)), w) /\
  Factory.handler cfg id ctx w = (mapOutcome (fun _ => []) (tokenOf (auth ctx)), w).
Proof.
  intros Hf. unfold Static.handler, Factory.handler, bind.
  rewrite !requestToken_tokenOf.
  destruct (tokenOf (auth ctx)); try discriminate Hf; split; reflexivity.
Qed.

(** X16.  When the token is refused, each handler throws that error and has
    done nothing: no request went to the catalog, nothing was logged and
    the clock was not read. *)
Theorem X16_auth_failure_stops_before_fetch cfg id ctx w e :
  tokenOf (auth ctx) = Throw e ->
  Static.handler ctx w = (Throw e, w) /\
  Factory.handler cfg id ctx w = (Throw e, w).
Proof.
  intros He.
  destruct (handler_auth_failure cfg id ctx w) as [H1 H2];
    [now rewrite He | rewrite H1, H2, He; split; reflexivity].
Qed.

Lemma X16_witness :
  Static.handler deniedContext world0 = (Throw (Rejected "401"), world0) /\
  Factory.handler VUndefined "dynamicEntityFactRetriever" deniedContext world0
    = (Throw (Rejected "401"), world0).
Proof.
  apply (X16_auth_failure_stops_before_fetch
           VUndefined "dynamicEntityFactRetriever" deniedContext world0 (Rejected "401")).
  reflexivity.
Defined.

(** X17.  When the catalog rejects the query, each handler throws the
    catalog's error after that one request, without reading the clock; the
    factory's handler has logged its filter line only, not the count. *)
Theorem X17_catalog_failure_propagates cfg id ctx w token e :
  tokenOf (auth ctx) = Ok token ->
  (discovery ctx (entityFilter ctx) token = Throw e ->
   Static.handler ctx w = (Throw e, afterFetch w (entityFilter ctx) token [])) /\
  (discovery ctx (cfg ||| entityFilter ctx) token = Throw e ->
   Factory.handler cfg id ctx w =
   (Throw e,
    afterFetch w (cfg ||| entityFilter ctx) token
      (if logger ctx
       then [ ((id ++ (if Boolean cfg
                       then " using configured entity filter:"
                       else " using context entity filter:"))%string,
               [cfg ||| entityFilter ctx]) ]
       else []))).
Proof.
  intros Ht. split; intros Hd.
  - rewrite (Static_handler_unfold ctx w token Ht), Hd. reflexivity.
  - rewrite (Factory_handler_unfold cfg id ctx w token Ht). cbv zeta. rewrite Hd.
    destruct (logger ctx); reflexivity.
Qed.

Lemma X17_witness :
  Static.handler downContext world0
    = (Throw (Rejected "503"), afterFetch world0 VUndefined "token-1" []) /\
  Factory.handler (VObj [("kind", VArr [VStr "API"])]) "dynamicEntityFactRetrieverAPIs"
    downContext world0
    = (Throw (Rejected "503"),
       afterFetch world0 (VObj [("kind", VArr [VStr "API"])]) "token-1"
         [ ("dynamicEntityFactRetrieverAPIs using configured entity filter:",
            [VObj [("kind", VArr [VStr "API"])]]) ]).
Proof.
  destruct (X17_catalog_failure_propagates
              (VObj [("kind", VArr [VStr "API"])]) "dynamicEntityFactRetrieverAPIs"
              downContext world0 "token-1" (Rejected "503") eq_refl) as [HS HF].
  split; [apply HS | apply HF]; reflexivity.
Defined.

(** X13.  Built without a filter (or with a falsy one) and run without a
    logger, the factory's handler is the static handler but for [status]:
    both leave the same world, throw the same error, or return the same
    records up to the [status] fact of the factory's. *)
Theorem X13_unfiltered_factory_is_static cfg id ctx w :
  Boolean cfg = false ->
  logger ctx = false ->
  Static.handler ctx w =
  (mapOutcome (map dropStatus) (fst (Factory.handler cfg id ctx w)),
   snd (Factory.handler cfg id ctx w)).
Proof.
  intros Hc Hl.
  destruct (tokenOf (auth ctx)) as [token| |] eqn:Ht.
  - rewrite (Static_handler_unfold ctx w token Ht).
    rewrite (Factory_handler_unfold cfg id ctx w token Ht). cbv zeta.
    rewrite Hl, (or_falsy _ _ Hc). simpl firstn.
    destruct (discovery ctx (entityFilter ctx) token); try reflexivity.
    apply mapM_dropStatus.
  - destruct (handler_auth_failure cfg id ctx w) as [H1 H2];
      [now rewrite Ht | rewrite H1, H2, Ht; reflexivity].
  - destruct (handler_auth_failure cfg id ctx w) as [H1 H2];
      [now rewrite Ht | rewrite H1, H2, Ht; reflexivity].
Qed.

Lemma X13_witness :
  Static.handler (setLogger false (sampleContext [svc; full])) world0 =
  (mapOutcome (map dropStatus)
     (fst (handler Factory.dynamicEntityFactRetriever
             (setLogger false (sampleContext [svc; full])) world0)),
   snd (handler Factory.dynamicEntityFactRetriever
          (setLogger false (sampleContext [svc; full])) world0)).
Proof.
  apply (X13_unfiltered_factory_is_static VUndefined "dynamicEntityFactRetriever"
           (setLogger false (sampleContext [svc; full])) world0); reflexivity.
Defined.

(** ** The logger *)

Lemma agree_refl w : agree w w.
Proof. repeat split. Qed.

Lemma toFactRecord_alike (T : value -> M FactRecord) (ws : bool) :
  (forall E w, transformable E = true ->
               T E w = (Ok (recordOf ws E (clock w (ticks w))), tick w)) ->
  (forall E w, transformable E = false -> isOk (fst (T E w)) = false) ->
  (forall E, stamping (T E)) ->
  (forall E, worldBlind (T E)) ->
  forall E, alike (T E) (T E).
Proof.
  intros Hrun Hfail Hst Hblind E w1 w2 (Hc & Hk & Hr).
  destruct (transformable E) eqn:Ht.
  - rewrite !Hrun by assumption. simpl. rewrite Hc, Hk.
    repeat split; simpl; congruence.
  - pose proof (Hfail E w1 Ht) as F1. pose proof (Hfail E w2 Ht) as F2.
    pose proof (Hst E w1) as S1. pose proof (Hst E w2) as S2.
    pose proof (Hblind E w1 w2) as Hb. unfold factsOf in Hb.
    rewrite F1 in S1. rewrite F2 in S2. rewrite S1, S2.
    split; [|repeat split; assumption].
    destruct (fst (T E w1)), (fst (T E w2)); try discriminate; congruence.
Qed.

Lemma alike_mapM (T : value -> M FactRecord) es :
  (forall E, alike (T E) (T E)) -> alike (mapM T es) (mapM T es).
Proof.
  intros HT. induction es as [|E es IH]; intros w1 w2 Hag; simpl.
  - split; [reflexivity | assumption].
  - unfold bind. destruct (HT E w1 w2 Hag) as [Ho Hw].
    destruct (T E w1) as [o1 w1'], (T E w2) as [o2 w2']; simpl in Ho, Hw; subst o2.
    destruct o1 as [r| |]; try (split; [reflexivity | assumption]).
    destruct (IH w1' w2' Hw) as [Ho' Hw'].
    destruct (mapM T es w1') as [o1 w1''], (mapM T es w2') as [o2 w2''];
      simpl in Ho', Hw'; subst o2.
    destruct o1; (split; [reflexivity | assumption]).
Qed.

Lemma Factory_toFactRecord_alike E : alike (Factory.toFactRecord E) (Factory.toFactRecord E).
Proof.
  apply (toFactRecord_alike Factory.toFactRecord true).
  - apply Factory_toFactRecord_run.
  - apply Factory_not_transformable.
  - apply Factory_toFactRecord_stamping.
  - apply Factory_toFactRecord_worldBlind.
Qed.

(** X14.  Logging changes nothing else: with or without a logger, the
    factory's handler ends alike (same records or same error) and leaves
    the same request log and the same clock. *)
Theorem X14_logger_is_not_behavioural cfg id ctx present w :
  fst (Factory.handler cfg id (setLogger present ctx) w)
    = fst (Factory.handler cfg id ctx w) /\
  agree (snd (Factory.handler cfg id (setLogger present ctx) w))
        (snd (Factory.handler cfg id ctx w)).
Proof.
  destruct (tokenOf (auth ctx)) as [token| |] eqn:Ht.
  - assert (Ht' : tokenOf (auth (setLogger present ctx)) = Ok token) by exact Ht.
    rewrite (Factory_handler_unfold cfg id _ w token Ht').
    rewrite (Factory_handler_unfold cfg id ctx w token Ht). cbv zeta.
    change (entityFilter (setLogger present ctx)) with (entityFilter ctx).
    change (discovery (setLogger present ctx)) with (discovery ctx).
    destruct (discovery ctx (cfg ||| entityFilter ctx) token) as [es| |].
    + apply alike_mapM; [apply Factory_toFactRecord_alike | repeat split].
    + split; [reflexivity | repeat split].
    + split; [reflexivity | repeat split].
  - destruct (handler_auth_failure cfg id ctx w) as [_ H2]; [now rewrite Ht|].
    destruct (handler_auth_failure cfg id (setLogger present ctx) w) as [_ H3];
      [simpl; now rewrite Ht|].
    rewrite H2, H3. split; [reflexivity | apply agree_refl].
  - destruct (handler_auth_failure cfg id ctx w) as [_ H2]; [now rewrite Ht|].
    destruct (handler_auth_failure cfg id (setLogger present ctx) w) as [_ H3];
      [simpl; now rewrite Ht|].
    rewrite H2, H3. split; [reflexivity | apply agree_refl].
Qed.

Lemma Static_handler_never_logs ctx w : logged (snd (Static.handler ctx w)) = logged w.
Proof.
  destruct (tokenOf (auth ctx)) as [token| |] eqn:Ht.
  - rewrite (Static_handler_unfold ctx w token Ht).
    destruct (discovery ctx (entityFilter ctx) token) as [es| |];
      try (simpl; apply app_nil_r).
    destruct (mapM_world Static.toFactRecord Static_toFactRecord_stamping es
                (afterFetch w (entityFilter ctx) token [])) as (k & _ & -> & _).
    rewrite logged_ticked. simpl. apply app_nil_r.
  - destruct (handler_auth_failure VUndefined "" ctx w) as [H1 _]; [now rewrite Ht|].
    now rewrite H1.
  - destruct (handler_auth_failure VUndefined "" ctx w) as [H1 _]; [now rewrite Ht|].
    now rewrite H1.
Qed.

(** X15.  In a run that reaches the batch map the factory's handler gives
    the logger exactly two lines, both starting with the descriptor's id:
    which filter is in use (configured or from the context) with the filter
    itself, then how many entities came back; without a logger nothing is
    logged.  This holds whether the map then succeeds or not.  The static
    handler never logs. *)
Theorem X15_log_lines cfg oid ctx w token es :
  tokenOf (auth ctx) = Ok token ->
  discovery ctx (cfg ||| entityFilter ctx) token = Ok es ->
  let retriever := Factory.createDynamicEntityFactRetriever cfg oid in
  logged (snd (handler retriever ctx w)) =
    logged w ++
    (if logger ctx
     then [ ((id retriever ++
              (if Boolean cfg
               then " using configured entity filter:"
               else " using context entity filter:"))%string,
             [if Boolean cfg then cfg else entityFilter ctx]);
            ((id retriever ++ " processed " ++ string_of_nat (List.length es)
              ++ " entities")%string, []) ]
     else []) /\
  logged (snd (Static.handler ctx w)) = logged w.
Proof.
  intros Ht Hd retriever. split; [|apply Static_handler_never_logs].
  subst retriever. unfold Factory.createDynamicEntityFactRetriever. simpl handler. simpl id.
  rewrite (Factory_handler_unfold cfg _ ctx w token Ht). cbv zeta. rewrite Hd.
  destruct (mapM_world Factory.toFactRecord Factory_toFactRecord_stamping es
              (afterFetch w (cfg ||| entityFilter ctx) token
                 (if logger ctx
                  then expectedLog cfg
                         match oid with Some i => i | None => "dynamicEntityFactRetriever" end
                         ctx (List.length es)
                  else []))) as (k & _ & -> & _).
  rewrite logged_ticked. simpl. unfold expectedLog, or. reflexivity.
Qed.

Lemma X15_witness :
  logged (snd (handler Factory.dynamicEntityFactRetrieverComponents
                 (sampleContext [svc; noMetadata; lib]) world0)) =
    [ ("dynamicEntityFactRetrieverComponents using configured entity filter:",
       [VObj [("kind", VArr [VStr "Component"])]]);
      ("dynamicEntityFactRetrieverComponents processed 3 entities", []) ] /\
  logged (snd (Static.handler (sampleContext [svc; noMetadata; lib]) world0)) = [].
Proof.
  apply (X15_log_lines (VObj [("kind", VArr [VStr "Component"])])
           (Some "dynamicEntityFactRetrieverComponents")
           (sampleContext [svc; noMetadata; lib]) world0 "token-1"
           [svc; noMetadata; lib]); reflexivity.
Defined.

(** ** Timestamps and the first failure *)

Lemma mapM_timestamps (T : value -> M FactRecord) (ws : bool) es w :
  (forall E w, transformable E = true ->
               T E w = (Ok (recordOf ws E (clock w (ticks w))), tick w)) ->
  forallb transformable es = true ->
  exists rs,
    mapM T es w = (Ok rs, ticked (List.length es) w) /\
    List.length rs = List.length es /\
    forall i r, nth_error rs i = Some r -> timestamp r = clock w (ticks w + i).
Proof.
  intros Hrun Hall.
  destruct (mapM_run T (fun E w0 H => ex_intro _ _ (Hrun E w0 H)) es w Hall)
    as (rs & Hm & Hlen & Hnth).
  exists rs. repeat split; try assumption.
  intros i r Hr.
  assert (Hi : (i < List.length es)%nat)
    by (rewrite <- Hlen; apply nth_error_Some; congruence).
  destruct (nth_error es i) as [E|] eqn:HE; [|apply nth_error_None in HE; lia].
  destruct (Hnth i E HE) as (r' & Hr' & Hrun').
  assert (Ht : transformable E = true).
  { rewrite forallb_forall in Hall. apply Hall. eapply nth_error_In; eassumption. }
  rewrite (Hrun E _ Ht) in Hrun'. injection Hrun' as <-.
  rewrite Hr in Hr'. injection Hr' as ->. simpl.
  now rewrite clock_ticked, ticks_ticked.
Qed.

(** X18.  In a run that returns, the handler has read the clock once per
    entity, in the order of the batch: the [i]-th record is stamped with
    the [i]-th reading made since the handler started. *)
Theorem X18_timestamps_follow_the_batch cfg id ctx w token es :
  tokenOf (auth ctx) = Ok token ->
  forallb transformable es = true ->
  (discovery ctx (entityFilter ctx) token = Ok es ->
   exists rs w',
     Static.handler ctx w = (Ok rs, w') /\
     ticks w' = (ticks w + List.length es)%nat /\
     forall i r, nth_error rs i = Some r -> timestamp r = clock w (ticks w + i)) /\
  (discovery ctx (cfg ||| entityFilter ctx) token = Ok es ->
   exists rs w',
     Factory.handler cfg id ctx w = (Ok rs, w') /\
     ticks w' = (ticks w + List.length es)%nat /\
     forall i r, nth_error rs i = Some r -> timestamp r = clock w (ticks w + i)).
Proof.
  intros Ht Hall. split; intros Hd.
  - rewrite (Static_handler_unfold ctx w token Ht), Hd.
    destruct (mapM_timestamps Static.toFactRecord false es
                (afterFetch w (entityFilter ctx) token [])
                Static_toFactRecord_run Hall) as (rs & Hm & _ & Hts).
    exists rs, (ticked (List.length es) (afterFetch w (entityFilter ctx) token [])).
    split; [exact Hm|]. split; [now rewrite ticks_ticked | exact Hts].
  - rewrite (Factory_handler_unfold cfg id ctx w token Ht). cbv zeta. rewrite Hd.
    match goal with
    | |- context [mapM _ es ?w1] =>
        destruct (mapM_timestamps Factory.toFactRecord true es w1
                    Factory_toFactRecord_run Hall) as (rs & Hm & _ & Hts);
        exists rs, (ticked (List.length es) w1)
    end.
    split; [exact Hm|]. split; [now rewrite ticks_ticked | exact Hts].
Qed.

Lemma X18_witness :
  exists rs w',
    Factory.handler VUndefined "dynamicEntityFactRetriever"
      (sampleContext [svc; lib; full]) world0 = (Ok rs, w') /\
    ticks w' = 3%nat /\
    forall i r, nth_error rs i = Some r ->
                timestamp r = (1700000000000 + Z.of_nat (0 + i))%Z.
Proof.
  apply (X18_timestamps_follow_the_batch VUndefined "dynamicEntityFactRetriever"
           (sampleContext [svc; lib; full]) world0 "token-1" [svc; lib; full]);
    reflexivity.
Defined.

(** X19.  The handler fails with the error of the first entity the
    transform throws on: the entities before it were transformed (one
    clock reading each), the ones after it are never looked at, and no
    record is returned. *)
Theorem X19_first_failure_decides cfg id ctx w token pre E post e :
  tokenOf (auth ctx) = Ok token ->
  forallb transformable pre = true ->
  (discovery ctx (entityFilter ctx) token = Ok (pre ++ E :: post) ->
   fst (Static.toFactRecord E w) = Throw e ->
   fst (Static.handler ctx w) = Throw e /\
   ticks (snd (Static.handler ctx w)) = (ticks w + List.length pre)%nat) /\
  (discovery ctx (cfg ||| entityFilter ctx) token = Ok (pre ++ E :: post) ->
   fst (Factory.toFactRecord E w) = Throw e ->
   fst (Factory.handler cfg id ctx w) = Throw e /\
   ticks (snd (Factory.handler cfg id ctx w)) = (ticks w + List.length pre)%nat).
Proof.
  intros Ht Hpre. split; intros Hd He.
  - rewrite (Static_handler_unfold ctx w token Ht), Hd.
    rewrite (mapM_first_failure Static.toFactRecord Static_toFactRecord_stamping
               (fun E w0 H => ex_intro _ _ (Static_toFactRecord_run E w0 H))
               pre E post e); try assumption.
    + split; [reflexivity | simpl snd; rewrite ticks_ticked; reflexivity].
    + eapply thrown_in_any_world; [apply Static_toFactRecord_worldBlind | exact He].
  - rewrite (Factory_handler_unfold cfg id ctx w token Ht). cbv zeta. rewrite Hd.
    rewrite (mapM_first_failure Factory.toFactRecord Factory_toFactRecord_stamping
               (fun E w0 H => ex_intro _ _ (Factory_toFactRecord_run E w0 H))
               pre E post e); try assumption.
    + split; [reflexivity | simpl snd; rewrite ticks_ticked; reflexivity].
    + eapply thrown_in_any_world; [apply Factory_toFactRecord_worldBlind | exact He].
Qed.

Lemma X19_witness :
  fst (Static.handler (sampleContext [svc; lib; nullRelation; noMetadata]) world0)
    = Throw (TypeError "Cannot read properties of null (reading 'type')") /\
  ticks (snd (Static.handler (sampleContext [svc; lib; nullRelation; noMetadata]) world0))
    = 2%nat.
Proof.
  destruct (X19_first_failure_decides VUndefined "dynamicEntityFactRetriever"
              (sampleContext [svc; lib; nullRelation; noMetadata]) world0 "token-1"
              [svc; lib] nullRelation [noMetadata]
              (TypeError "Cannot read properties of null (reading 'type')")
              eq_refl eq_refl) as [HS _].
  apply HS; reflexivity.
Defined.

(** ** The descriptor *)

(** X20.  What decides between the configured and the context's filter is
    the truthiness of [entityFilterConfig], and the descriptor's title and
    description follow it: a truthy configuration is marked "(Filtered)"
    and is the filter sent to the catalog; a falsy one ([undefined], [null],
    the empty string, 0, [false]) leaves title and description unmarked and
    the context's filter is sent.  Id defaults to
    "dynamicEntityFactRetriever"; version and schema do not depend on the
    arguments. *)
Theorem X20_truthiness_of_the_configuration cfg oid ctx w token :
  tokenOf (auth ctx) = Ok token ->
  let retriever := Factory.createDynamicEntityFactRetriever cfg oid in
  (Boolean cfg = true ->
   title retriever = "Dynamic Entity Properties (Filtered)" /\
   description retriever = "Dynamic entity fact retriever with entity filtering" /\
   requests (snd (handler retriever ctx w)) = requests w ++ [(cfg, token)]) /\
  (Boolean cfg = false ->
   title retriever = "Dynamic Entity Properties" /\
   description retriever = "Dynamic entity fact retriever" /\
   requests (snd (handler retriever ctx w)) = requests w ++ [(entityFilter ctx, token)]) /\
  id retriever = match oid with Some i => i | None => "dynamicEntityFactRetriever" end /\
  version retriever = "0.1.0" /\
  schema retriever = Factory.schema.
Proof.
  intros Ht retriever. subst retriever.
  unfold Factory.createDynamicEntityFactRetriever. simpl.
  rewrite (Factory_handler_requests _ _ _ _ _ Ht). unfold or.
  split; [|split; [|repeat split]]; intros Hb; rewrite Hb; repeat split.
Qed.

Lemma X20_witness :
  title (Factory.createFilteredDynamicFactRetriever
           (VObj [("spec.type", VStr "service")]) "services")
    = "Dynamic Entity Properties (Filtered)" /\
  requests (snd (handler (Factory.createFilteredDynamicFactRetriever
                            (VObj [("spec.type", VStr "service")]) "services")
                   (sampleContext [svc]) world0))
    = [(VObj [("spec.type", VStr "service")], "token-1")] /\
  title (Factory.createDynamicEntityFactRetriever (VStr "") None)
    = "Dynamic Entity Properties" /\
  requests (snd (handler (Factory.createDynamicEntityFactRetriever (VStr "") None)
                   (sampleContext [svc]) world0))
    = [(VObj [("kind", VArr [VStr "API"])], "token-1")].
Proof.
  destruct (X20_truthiness_of_the_configuration
              (VObj [("spec.type", VStr "service")]) (Some "services")
              (sampleContext [svc]) world0 "token-1" eq_refl) as (H1 & _).
  destruct (X20_truthiness_of_the_configuration
              (VStr "") None (sampleContext [svc]) world0 "token-1" eq_refl)
    as (_ & H2 & _).
  destruct (H1 eq_refl) as (A & _ & B).
  destruct (H2 eq_refl) as (C & _ & D).
  repeat split; assumption.
Defined.
